(** * exutil: a shallow embedding of [exutil.py]

    The program is a command-line helper that resolves sub-command names by
    prefix, splits list-valued arguments, and runs small tasks that shell out
    to [git], [exercism] and [pytest].  The embedding keeps the shape of the
    Python source: dynamically typed values, exceptions, [sys.stdout]
    redirection, and an explicit world (file system, console, journal of
    external effects) threaded through a state-and-exception monad. *)

From Stdlib Require Import ZArith Ascii Lia Sorted.
From stdpp Require Import base option list strings pretty gmap.

Local Open Scope Z_scope.

(** ** Text *)

(** A Python [str] is represented by its UTF-8 encoding, a [bytes] object by
    its bytes; both are Rocq strings.  Prefix tests, splitting at ASCII
    delimiters, replacing one ASCII character by another and comparing by
    code point all commute with that encoding. *)
Module Str.

Definition code (c : ascii) : N := N_of_ascii c.

Definition between (lo hi : N) (c : ascii) : bool :=
  ((lo <=? code c) && (code c <=? hi))%N.

Definition is_upper : ascii -> bool := between 65 90.
Definition is_lower : ascii -> bool := between 97 122.
Definition is_cased (c : ascii) : bool := is_upper c || is_lower c.

Definition upper (c : ascii) : ascii :=
  if is_lower c then ascii_of_N (code c - 32) else c.
Definition lower (c : ascii) : ascii :=
  if is_upper c then ascii_of_N (code c + 32) else c.

(** [str.title()]: a cased character is upper-cased when the character
    before it is not cased, lower-cased otherwise (ASCII letters; the
    labels the program passes are ASCII literals). *)
Fixpoint title_from (previous_is_cased : bool) (s : string) : string :=
  match s with
  | EmptyString => EmptyString
  | String c s' =>
      if is_cased c
      then String (if previous_is_cased then lower c else upper c)
                  (title_from true s')
      else String c (title_from false s')
  end.
Definition title : string -> string := title_from false.

(** [s.replace(old, new)] for one-character [old] and [new]. *)
Fixpoint replace (old new : ascii) (s : string) : string :=
  match s with
  | EmptyString => EmptyString
  | String c s' => String (if Ascii.eqb c old then new else c) (replace old new s')
  end.

(** [sep.join(parts)] on strings. *)
Definition join (sep : string) (parts : list string) : string :=
  String.concat sep parts.

(** [s.startswith(p)]. *)
Definition startswith (s p : string) : bool := String.prefix p s.

Fixpoint endswith_char (c : ascii) (s : string) : bool :=
  match s with
  | EmptyString => false
  | String d EmptyString => Ascii.eqb d c
  | String _ s' => endswith_char c s'
  end.

(** [pattern.split(s)] for a pattern that is one character class: every
    single matching character separates two pieces. *)
Fixpoint split_class (in_class : ascii -> bool) (s : string) : list string :=
  match s with
  | EmptyString => [EmptyString]
  | String c s' =>
      if in_class c then EmptyString :: split_class in_class s'
      else match split_class in_class s' with
           | piece :: pieces => String c piece :: pieces
           | [] => [String c EmptyString]
           end
  end.

(** Well-formed UTF-8 (the table of the Unicode standard: no overlong
    forms, no surrogates, nothing above U+10FFFF).  [need] continuation
    bytes are pending and the next one must lie in [lo..hi]. *)
Fixpoint utf8_from (need : nat) (lo hi : N) (s : string) : bool :=
  match s with
  | EmptyString => match need with O => true | S _ => false end
  | String c s' =>
      match need with
      | O =>
          if between 0 127 c then utf8_from 0 128 191 s'
          else if between 194 223 c then utf8_from 1 128 191 s'
          else if between 224 224 c then utf8_from 2 160 191 s'
          else if between 225 236 c || between 238 239 c then utf8_from 2 128 191 s'
          else if between 237 237 c then utf8_from 2 128 159 s'
          else if between 240 240 c then utf8_from 3 144 191 s'
          else if between 241 243 c then utf8_from 3 128 191 s'
          else if between 244 244 c then utf8_from 3 128 143 s'
          else false
      | S n => between lo hi c && utf8_from n 128 191 s'
      end
  end.
Definition utf8_valid : string -> bool := utf8_from 0 128 191.

(** A leading white-space character of a [str], in UTF-8: its length in
    bytes, or 0.  The set is CPython's: U+0009..000D, U+001C..0020,
    U+0085, U+00A0, U+1680, U+2000..200A, U+2028, U+2029, U+202F, U+205F,
    U+3000. *)
Definition space_prefix (s : string) : nat :=
  match s with
  | String c1 r1 =>
      if between 9 13 c1 || between 28 32 c1 then 1%nat
      else match r1 with
      | String c2 r2 =>
          if between 194 194 c1 && (between 133 133 c2 || between 160 160 c2)
          then 2%nat
          else match r2 with
          | String c3 _ =>
              if between 225 225 c1 && between 154 154 c2 && between 128 128 c3 then 3%nat
              else if between 226 226 c1 && between 128 128 c2
                      && (between 128 138 c3 || between 168 169 c3 || between 175 175 c3)
              then 3%nat
              else if between 226 226 c1 && between 129 129 c2 && between 159 159 c3 then 3%nat
              else if between 227 227 c1 && between 128 128 c2 && between 128 128 c3 then 3%nat
              else 0%nat
          | EmptyString => 0%nat
          end
      | EmptyString => 0%nat
      end
  | EmptyString => 0%nat
  end.

Definition is_continuation (c : ascii) : bool := between 128 191 c.

(** The characters of a [str]: a byte joins the chunk to its right while
    that chunk still begins with a continuation byte. *)
Fixpoint chars (s : string) : list string :=
  match s with
  | EmptyString => []
  | String c s' =>
      match chars s' with
      | String d chunk :: rest =>
          if is_continuation d then String c (String d chunk) :: rest
          else String c EmptyString :: String d chunk :: rest
      | rest => String c EmptyString :: rest
      end
  end.

Definition is_space (chunk : string) : bool :=
  match space_prefix chunk with
  | O => false
  | k => Nat.eqb k (String.length chunk)
  end.

Fixpoint drop_spaces (l : list string) : list string :=
  match l with
  | chunk :: l' => if is_space chunk then drop_spaces l' else l
  | [] => []
  end.

(** [s.strip()]: white space removed at both ends. *)
Definition strip (s : string) : string :=
  String.concat EmptyString (rev (drop_spaces (rev (drop_spaces (chars s))))).

End Str.

(** ** Values and exceptions *)

(** The Python objects that flow through the program: [None], integers,
    [str] and [bytes]. *)
Inductive value : Type :=
| VNone
| VInt (n : Z)
| VStr (s : string)
| VBytes (b : string).

(** The exceptions the program can meet.  [CalledProcessError] carries the
    fields the task wrapper reads; [SystemExit] carries the argument of
    [sys.exit]. *)
Inductive exn : Type :=
| AttributeError (type_name attribute : string)
| TypeError (message : string)
| UnicodeDecodeError
| OSError (path : string)
| CalledProcessError (returncode : Z) (cmd : list string) (output : value)
| SystemExit (code : value).

Inductive outcome (A : Type) : Type :=
| Ret (a : A)
| Raise (e : exn).
Arguments Ret {A} a.
Arguments Raise {A} e.

Definition type_name (v : value) : string :=
  match v with
  | VNone => "NoneType"
  | VInt _ => "int"
  | VStr _ => "str"
  | VBytes _ => "bytes"
  end.

(** [v.decode()]: only [bytes] has the method. *)
Definition py_decode (v : value) : outcome string :=
  match v with
  | VBytes b => if Str.utf8_valid b then Ret b else Raise UnicodeDecodeError
  | _ => Raise (AttributeError (type_name v) "decode")
  end.

(** [sep.join(items)]: every item has to be a [str]; the first that is not
    raises a [TypeError] that names its position and type. *)
Fixpoint py_join_items (position : nat) (items : list value) : outcome (list string) :=
  match items with
  | [] => Ret []
  | VStr s :: items' =>
      match py_join_items (S position) items' with
      | Ret l => Ret (s :: l)
      | Raise e => Raise e
      end
  | v :: _ =>
      Raise (TypeError ("sequence item " +:+ pretty position
                        +:+ ": expected str instance, " +:+ type_name v +:+ " found"))
  end.

Definition py_join (sep : string) (items : list value) : outcome string :=
  match py_join_items 0 items with
  | Ret l => Ret (Str.join sep l)
  | Raise e => Raise e
  end.

(** Truth value of [opts.verbose]: [None] when [-v] was not given, its count
    otherwise. *)
Definition truthy (v : option Z) : bool :=
  match v with
  | None => false
  | Some n => negb (n =? 0)
  end.

(** [ret not in {None, 0}] is false exactly for [None] and [0]. *)
Definition in_None_0 (v : value) : bool :=
  match v with
  | VNone => true
  | VInt n => n =? 0
  | _ => false
  end.

(** [os.path.join(a, b)] of [posixpath]. *)
Definition path_join (a b : string) : string :=
  if Str.startswith b "/" then b
  else if String.eqb a EmptyString || Str.endswith_char "/" a then a +:+ b
  else a +:+ "/" +:+ b.

(** ** The world *)

(** What the program asks of its platform.  [spawn] runs an external program
    to completion: exit status, what it wrote to the inherited terminal, and
    the file system it leaves.  [pytest_main] is the in-process test runner:
    result code, what it wrote to [sys.stdout], file system.  [copy2] and
    [rmtree] fail with [None] where Python raises [OSError].  A removal
    works entry by entry and can fail midway: [rmtree_failure] then gives
    the path that the error names and the file system that is left, in
    which part of the tree may be gone already. *)
Class Platform (FS : Type) : Type := {
  isfile : FS -> string -> bool;
  isdir : FS -> string -> bool;
  glob : FS -> string -> list string;
  copy2 : string -> string -> FS -> option FS;
  rmtree : string -> FS -> option FS;
  rmtree_failure : string -> FS -> string * FS;
  spawn : list string -> FS -> Z * string * FS;
  pytest_main : list value -> FS -> Z * string * FS;
}.

(** The object bound to [sys.stdout] or [sys.stderr]. *)
Inductive stream : Type :=
| Terminal
| StringIO (contents : string).

(** Effects on the outside world, in the order they happened. *)
Inductive event : Type :=
| Spawned (args : list string)
| PytestRun (args : list value)
| Copied (src dst : string)
| Removed (path : string).

Record state (FS : Type) : Type := mkState {
  fs : FS;
  sys_stdout : stream;
  sys_stderr : stream;
  console : string;
  journal : list event;
}.
Arguments mkState {FS}.
Arguments fs {FS}.
Arguments sys_stdout {FS}.
Arguments sys_stderr {FS}.
Arguments console {FS}.
Arguments journal {FS}.

(** ** The monad of Python code: state and exceptions *)

Definition Py (FS A : Type) : Type := state FS -> outcome A * state FS.

Definition ret {FS A} (a : A) : Py FS A := fun st => (Ret a, st).

Definition raise {FS A} (e : exn) : Py FS A := fun st => (Raise e, st).

Definition bind {FS A B} (m : Py FS A) (k : A -> Py FS B) : Py FS B :=
  fun st =>
    match m st with
    | (Ret a, st') => k a st'
    | (Raise e, st') => (Raise e, st')
    end.

Definition lift {FS A} (r : outcome A) : Py FS A := fun st => (r, st).

Declare Scope py_scope.
Delimit Scope py_scope with py.
Notation "x <- m ;; k" := (bind m (fun x => k))
  (at level 100, m at next level, right associativity) : py_scope.
Notation "m ;; k" := (bind m (fun _ => k))
  (at level 100, right associativity) : py_scope.
Local Open Scope py_scope.

(** [try: body  except ...: handler]: [handler e] is [None] when no clause
    matches [e], which then propagates. *)
Definition try_except {FS A} (body : Py FS A) (handler : exn -> option (Py FS A)) : Py FS A :=
  fun st =>
    match body st with
    | (Ret a, st') => (Ret a, st')
    | (Raise e, st') =>
        match handler e with
        | Some h => h st'
        | None => (Raise e, st')
        end
    end.

(** [for x in l: body x]. *)
Fixpoint for_each {FS A} (l : list A) (body : A -> Py FS unit) : Py FS unit :=
  match l with
  | [] => ret tt
  | x :: l' => body x ;; for_each l' body
  end.

(** [map(f, l)] consumed to the end; the first exception stops it. *)
Fixpoint map_each {FS A B} (f : A -> Py FS B) (l : list A) : Py FS (list B) :=
  match l with
  | [] => ret []
  | x :: l' => y <- f x ;; ys <- map_each f l' ;; ret (y :: ys)
  end.

(** ** Primitive operations *)

Section Program.
Context {FS : Type} `{Platform FS}.

Definition nl : string := String "010"%char EmptyString.

Definition set_fs (f : FS) (st : state FS) : state FS :=
  mkState f (sys_stdout st) (sys_stderr st) (console st) (journal st).

Definition set_streams (out err : stream) (st : state FS) : state FS :=
  mkState (fs st) out err (console st) (journal st).

Definition to_console (text : string) (st : state FS) : state FS :=
  mkState (fs st) (sys_stdout st) (sys_stderr st) (console st +:+ text) (journal st).

Definition record (e : event) (st : state FS) : state FS :=
  mkState (fs st) (sys_stdout st) (sys_stderr st) (console st) (journal st ++ [e]).

(** [sys.stdout.write(text)]: to the terminal, or into the buffer that
    currently stands in for it. *)
Definition write (text : string) : Py FS unit :=
  fun st =>
    match sys_stdout st with
    | Terminal => (Ret tt, to_console text st)
    | StringIO buffer => (Ret tt, set_streams (StringIO (buffer +:+ text)) (sys_stderr st) st)
    end.

(** The state once [text] has been written to [sys.stdout]. *)
Definition printed (text : string) (st : state FS) : state FS := (write text st).2.

(** The module's [print]: [builtins.print] with [flush=True].  Its [level]
    keyword is bound by the parameter of that name and so never reaches
    [kwargs]; the verbosity test is dead code and every call prints. *)
Definition print (args : list string) (end_ : string) : Py FS value :=
  write (Str.join " " args +:+ end_) ;; ret VNone.

Definition sys_exit {A} (code : value) : Py FS A := raise (SystemExit code).

(** [with capture(): body]: both streams are replaced by fresh buffers and
    put back on every exit path; the buffers are dropped. *)
Definition capture {A} (body : Py FS A) : Py FS A :=
  fun st =>
    let oldout := sys_stdout st in
    let olderr := sys_stderr st in
    match body (set_streams (StringIO EmptyString) (StringIO EmptyString) st) with
    | (r, st') => (r, set_streams oldout olderr st')
    end.

(** [subprocess.check_call(args, stderr=STDOUT)]: the child writes to the
    inherited terminal, nothing is captured; status 0 is returned as the
    integer 0, any other status raises [CalledProcessError(status, args)],
    whose [output] is [None]. *)
Definition check_call (args : list string) : Py FS value :=
  fun st =>
    match spawn args (fs st) with
    | (status, text, fs') =>
        let st' := record (Spawned args) (to_console text (set_fs fs' st)) in
        if status =? 0 then (Ret (VInt 0), st')
        else (Raise (CalledProcessError status args VNone), st')
    end.

(** [pytest.main(args)], in process: its report goes through [sys.stdout]. *)
Definition pytest_run (args : list value) : Py FS value :=
  fun st =>
    match pytest_main args (fs st) with
    | (code, text, fs') =>
        match write text (record (PytestRun args) (set_fs fs' st)) with
        | (_, st') => (Ret (VInt code), st')
        end
    end.

Definition os_path_isfile (path : string) : Py FS bool :=
  fun st => (Ret (isfile (fs st) path), st).

Definition os_path_isdir (path : string) : Py FS bool :=
  fun st => (Ret (isdir (fs st) path), st).

Definition glob_glob (pattern : string) : Py FS (list string) :=
  fun st => (Ret (glob (fs st) pattern), st).

Definition shutil_copy2 (src dst : string) : Py FS unit :=
  fun st =>
    match copy2 src dst (fs st) with
    | Some fs' => (Ret tt, record (Copied src dst) (set_fs fs' st))
    | None => (Raise (OSError src), st)
    end.

(** [shutil.rmtree(path)]: when it fails, the error names the entry it
    failed on, and what was removed before that entry stays removed. *)
Definition shutil_rmtree (path : string) : Py FS unit :=
  fun st =>
    match rmtree path (fs st) with
    | Some fs' => (Ret tt, record (Removed path) (set_fs fs' st))
    | None =>
        match rmtree_failure path (fs st) with
        | (culprit, fs') => (Raise (OSError culprit), set_fs fs' st)
        end
    end.

(** ** The command registry *)

(** A registered function: its [__name__] and its behaviour on a target. *)
Record Command : Type := mkCommand {
  name : string;
  call : string -> Py FS value;
}.

Fixpoint insert_by_name (c : Command) (l : list Command) : list Command :=
  match l with
  | [] => [c]
  | d :: l' =>
      if String.ltb (name c) (name d) then c :: d :: l'
      else d :: insert_by_name c l'
  end.

(** [list.sort(key=lambda f: f.__name__)]: a stable sort. *)
Definition sort_by_name (l : list Command) : list Command :=
  fold_left (fun sorted c => insert_by_name c sorted) l [].

(** [CommandManager.register]: append, then sort by name. *)
Definition register (function : Command) (commands : list Command) : list Command :=
  sort_by_name (commands ++ [function]).

(** [CommandManager.find_best]. *)
Definition find_best (commands : list Command) (s : string) : Py FS Command :=
  let matches := List.filter (fun c => Str.startswith (name c) s) commands in
  match matches with
  | [c] => ret c
  | [] =>
      print ["Unknown command '" +:+ s +:+ "''"] nl ;;
      sys_exit (VInt 1)
  | _ =>
      print ["Ambigious command '" +:+ s +:+ "'; choose from the following:"] nl ;;
      for_each matches (fun c => print ["  " +:+ name c] nl ;; ret tt) ;;
      sys_exit (VInt 1)
  end.

(** [CommandManager.__iter__]. *)
Definition names (commands : list Command) : list string := map name commands.

(** ** List-valued options *)

(** [RGX_LIST = re.compile('[ ,;]')], as the character class it denotes. *)
Definition RGX_LIST (c : ascii) : bool :=
  Ascii.eqb c " " || Ascii.eqb c "," || Ascii.eqb c ";".

Definition RGX_LIST_split : string -> list string := Str.split_class RGX_LIST.


Section ExtendAction.
Context {A : Type} (parse : string -> Py FS A).

(** [ExtendAction.__extend__]; [current] is the attribute [dest] of the
    namespace, [None] when it holds Python's [None]. *)
Definition ExtendAction_extend (current : option (list A)) (value : string)
  : Py FS (option (list A)) :=
  let current := default [] current in
  let parsed := RGX_LIST_split value in
  items <- map_each parse parsed ;;
  ret (Some (current ++ items)).




End ExtendAction.

(** [ExtendAction.__parse__] and its override in [CommandAction]. *)
Definition ExtendAction_parse (value : string) : Py FS string := ret value.

Definition CommandAction_parse (cmd_mgr : list Command) (value : string) : Py FS Command :=
  find_best cmd_mgr value.

(** ** Tasks *)

(** The attributes of the global [opts] that the tasks read. *)
Record Flags : Type := mkFlags {
  verbose : option Z;
  timeout : option Z;
}.

Section Tasks.
Variable opts : Flags.

(** The decorator [task(action)] applied to [function]: the [_wrapper]. *)
Definition task (action : string) (function : string -> Py FS value) (target : string)
  : Py FS value :=
  print [Str.title action +:+ " " +:+ target +:+ "..."] EmptyString ;;
  try_except
    ((if truthy (verbose opts)
      then print [] nl ;; function target
      else capture (function target)) ;;
     print ["Done"] nl)
    (fun e =>
       match e with
       | CalledProcessError returncode _ output =>
           Some (text <- lift (py_decode output) ;;
                 print [Str.strip text] nl ;;
                 sys_exit (VInt returncode))
       | SystemExit code =>
           Some (print ["Failed"] nl ;; sys_exit code)
       | _ => None
       end) ;;
  ret VNone.

(** The first statement of the [try] block on its own: the function called
    with its output shown (verbose) or captured. *)
Definition attempt (function : string -> Py FS value) (target : string) : Py FS value :=
  if truthy (verbose opts)
  then print [] nl ;; function target
  else capture (function target).

Definition terminal (args : list string) : Py FS value :=
  print [Str.join " " args] nl ;;
  r <- check_call args ;;
  text <- lift (py_decode r) ;;
  let _ := Str.strip text in
  ret VNone.

Definition exercism (args : list string) : Py FS value := terminal ("exercism" :: args).

Definition git (args : list string) : Py FS value := terminal ("git" :: args).

Definition migrate (exercise : string) : Py FS value :=
  marker <- os_path_isfile (path_join exercise ".solution.json") ;;
  if marker : bool then
    print [exercise +:+ " has already been migrated"] nl ;;
    ret VNone
  else
    exercism ["download"; "-t"; "python"; "-e"; exercise] ;;
    let src_dir := exercise +:+ "-2" in
    present <- os_path_isdir src_dir ;;
    if negb present then
      let solution_file := Str.replace "-" "_" exercise +:+ ".py" in
      print ["Restoring " +:+ solution_file] nl ;;
      git ["checkout"; "--"; path_join exercise solution_file] ;;
      ret VNone
    else
      for_each
        [".solution.json"; "README.md"; Str.replace "-" "_" exercise +:+ "_test.py"]
        (fun filename =>
           let src := path_join src_dir filename in
           let dst := path_join exercise filename in
           print ["Copying " +:+ src +:+ "->" +:+ dst] nl ;;
           shutil_copy2 src dst) ;;
      print ["Removing " +:+ src_dir +:+ "/"] nl ;;
      shutil_rmtree src_dir ;;
      ret VNone.

Definition test (exercise : string) : Py FS value :=
  let args :=
    [VStr "-x"; VStr exercise]
    ++ match timeout opts with
       | Some t => [VStr "--timeout"; VInt t]
       | None => []
       end in
  line <- lift (py_join " " (VStr "pytest" :: args)) ;;
  print [line] nl ;;
  r <- pytest_run args ;;
  ret r.

Definition submit (exercise : string) : Py FS value :=
  let solution_file_name := Str.replace "-" "_" exercise +:+ ".py" in
  let solution_file_path := path_join exercise solution_file_name in
  exercism ["submit"; solution_file_path] ;;
  ret VNone.

Definition restore (exercise : string) : Py FS value :=
  print ["Removing " +:+ exercise +:+ "/"] nl ;;
  shutil_rmtree exercise ;;
  git ["checkout"; "--"; exercise] ;;
  ret VNone.

Definition checkin (exercise : string) : Py FS value :=
  git ["add"; exercise] ;;
  ret VNone.

(** The five registrations, in source order: each name is bound to the
    wrapper that [task] returns, which [functools.wraps] gives the name of
    the function it wraps. *)
Definition cmd_migrate : Command := mkCommand "migrate" (task "migrating" migrate).
Definition cmd_test : Command := mkCommand "test" (task "testing" test).
Definition cmd_submit : Command := mkCommand "submit" (task "submitting" submit).
Definition cmd_restore : Command := mkCommand "restore" (task "restoring" restore).
Definition cmd_checkin : Command := mkCommand "checkin" (task "checking in" checkin).

Definition cmd_mgr : list Command :=
  register cmd_checkin
    (register cmd_restore
       (register cmd_submit
          (register cmd_test
             (register cmd_migrate [])))).

End Tasks.

(** ** The dispatch loop *)

(** The parsed command line, as the loop reads it. *)
Record Options : Type := mkOptions {
  ignore : list string;
  command : list Command;
  exercise : list string;
}.

(** The body of [if __name__ == '__main__'] after [parse_args]. *)
Definition main (opts : Options) : Py FS unit :=
  for_each (exercise opts) (fun pattern =>
    exs <- glob_glob pattern ;;
    for_each exs (fun ex =>
      if bool_decide (ex ∈ ignore opts) then ret tt
      else
        for_each (command opts) (fun command =>
          r <- call command ex ;;
          if in_None_0 r then ret tt else sys_exit r))).

End Program.

Arguments Command FS : clear implicits.
Arguments Options FS : clear implicits.

(** ** The specification's reading, for comparison with the code *)

(** Splitting on any run of delimiters, as the specification words it: a
    maximal run of delimiter characters separates two pieces. *)
Fixpoint split_runs_from (in_run : bool) (in_class : ascii -> bool) (s : string)
  : list string :=
  match s with
  | EmptyString => [EmptyString]
  | String c s' =>
      if in_class c then
        if in_run then split_runs_from true in_class s'
        else EmptyString :: split_runs_from true in_class s'
      else match split_runs_from false in_class s' with
           | piece :: pieces => String c piece :: pieces
           | [] => [String c EmptyString]
           end
  end.

Definition split_on_runs : string -> list string := split_runs_from false RGX_LIST.

(** The delimiter characters of a string, in order, and the string put back
    together from pieces and delimiters. *)
Fixpoint delimiters (s : string) : list ascii :=
  match s with
  | EmptyString => []
  | String c s' => if RGX_LIST c then c :: delimiters s' else delimiters s'
  end.

Fixpoint interleave (pieces : list string) (seps : list ascii) : string :=
  match pieces, seps with
  | piece :: pieces', sep :: seps' => piece +:+ String sep (interleave pieces' seps')
  | piece :: _, [] => piece
  | [], _ => EmptyString
  end.

Fixpoint has_delimiter (s : string) : bool :=
  match s with
  | EmptyString => false
  | String c s' => RGX_LIST c || has_delimiter s'
  end.

Section Schedule.
Context {FS : Type} `{Platform FS}.

(** The registered commands whose name starts with [s], and the lines that
    list them. *)
Definition matching (commands : list (Command FS)) (s : string) : list (Command FS) :=
  List.filter (fun c => Str.startswith (name c) s) commands.

Fixpoint listing (matches : list (Command FS)) : string :=
  match matches with
  | [] => EmptyString
  | c :: matches' => "  " +:+ name c +:+ nl +:+ listing matches'
  end.

(** The calls of one expansion, as the specification orders them: targets
    outermost, commands innermost. *)
Definition plan (targets : list string) (commands : list (Command FS))
  : list (Command FS * string) :=
  flat_map (fun ex => map (fun c => (c, ex)) commands) targets.

(** Run planned calls one after the other; the first result that is neither
    [None] nor [0] ends the process with that result as its exit code. *)
Fixpoint run_calls (calls : list (Command FS * string)) (st : state FS)
  : outcome unit * state FS :=
  match calls with
  | [] => (Ret tt, st)
  | (c, ex) :: calls' =>
      match call c ex st with
      | (Ret r, st') =>
          if in_None_0 r then run_calls calls' st'
          else (Raise (SystemExit r), st')
      | (Raise e, st') => (Raise e, st')
      end
  end.

Definition not_ignored (ignored : list string) (targets : list string) : list string :=
  List.filter (fun ex => negb (bool_decide (ex ∈ ignored))) targets.

(** Pattern by pattern: expand, drop the ignored targets, run the plan. *)
Fixpoint spec_dispatch (ignored : list string) (commands : list (Command FS))
    (patterns : list string) (st : state FS) : outcome unit * state FS :=
  match patterns with
  | [] => (Ret tt, st)
  | pattern :: patterns' =>
      match run_calls (plan (not_ignored ignored (glob (fs st) pattern)) commands) st with
      | (Ret _, st') => spec_dispatch ignored commands patterns' st'
      | (Raise e, st') => (Raise e, st')
      end
  end.

End Schedule.

(** ** A platform in memory, to run the model on concrete inputs *)

Inductive node : Type :=
| File (contents : string)
| Dir.

Definition mem_isfile (tree : gmap string node) (path : string) : bool :=
  match tree !! path with
  | Some (File _) => true
  | _ => false
  end.

Definition mem_isdir (tree : gmap string node) (path : string) : bool :=
  match tree !! path with
  | Some Dir => true
  | _ => false
  end.

(** A pattern without wildcard characters matches the path it spells. *)
Definition mem_glob (tree : gmap string node) (pattern : string) : list string :=
  match tree !! pattern with
  | Some _ => [pattern]
  | None => []
  end.

Definition mem_copy2 (src dst : string) (tree : gmap string node)
  : option (gmap string node) :=
  match tree !! src with
  | Some (File contents) => Some (<[dst := File contents]> tree)
  | _ => None
  end.

Definition mem_rmtree (path : string) (tree : gmap string node)
  : option (gmap string node) :=
  if mem_isdir tree path then
    Some (filter (fun entry => entry.1 ≠ path ∧ String.prefix (path +:+ "/") entry.1 = false) tree)
  else None.

(** In memory nothing is protected: a removal fails only where there is no
    directory to remove, the error names the path itself and nothing is
    touched. *)
Definition mem_rmtree_failure (path : string) (tree : gmap string node)
  : string * gmap string node :=
  (path, tree).

Definition mem_platform
    (tool : list string -> gmap string node -> Z * string * gmap string node)
    (runner : list value -> gmap string node -> Z * string * gmap string node)
  : Platform (gmap string node) :=
  {| isfile := mem_isfile;
     isdir := mem_isdir;
     glob := mem_glob;
     copy2 := mem_copy2;
     rmtree := mem_rmtree;
     rmtree_failure := mem_rmtree_failure;
     spawn := tool;
     pytest_main := runner |}.

Definition boot {FS} (tree : FS) : state FS :=
  mkState tree Terminal Terminal EmptyString [].

(** External tools of the scenarios below. *)
Definition tool_exit (status : Z) (args : list string) (tree : gmap string node)
  : Z * string * gmap string node :=
  (status, EmptyString, tree).

Definition runner_exit (code : Z) (args : list value) (tree : gmap string node)
  : Z * string * gmap string node :=
  (code, EmptyString, tree).

(** [exercism download] that succeeds and leaves the exercise in a fresh
    directory [two-fer-2]. *)
Definition tool_download (args : list string) (tree : gmap string node)
  : Z * string * gmap string node :=
  (0, EmptyString,
   <["two-fer-2" := Dir]>
     (<["two-fer-2/.solution.json" := File "{}"]>
        (<["two-fer-2/README.md" := File "# Two Fer"]>
           (<["two-fer-2/two_fer_test.py" := File "import unittest"]> tree)))).

Definition tree_two_fer : gmap string node :=
  <["two-fer" := Dir]> (<["two-fer/two_fer.py" := File "pass"]> ∅).

Definition tree_migrated : gmap string node :=
  <["leap" := Dir]> (<["leap/.solution.json" := File "{}"]> ∅).

Definition tree_ex1_ex2 : gmap string node :=
  <["ex1" := Dir]> (<["ex2" := Dir]> ∅).

Definition quiet : Flags := mkFlags None None.





(** Commands that only announce themselves, to observe the order of calls. *)
Definition announce {FS} (label : string) (result : value) : Command FS :=
  mkCommand label (fun ex st =>
    (Ret result,
     mkState (fs st) (sys_stdout st) (sys_stderr st)
             (console st +:+ label +:+ "(" +:+ ex +:+ ") ") (journal st))).

(** The platform of the scenarios: every external tool exits with [tool],
    the test runner returns [runner]. *)
Definition scenario (tool runner : Z) : Platform (gmap string node) :=
  mem_platform (tool_exit tool) (runner_exit runner).

Definition run_main (P : Platform (gmap string node))
    (opts : Options (gmap string node)) (tree : gmap string node)
  : outcome unit * state (gmap string node) :=
  main opts (boot tree).

Definition run_command (P : Platform (gmap string node))
    (c : Platform (gmap string node) -> Flags -> Command (gmap string node))
    (opts : Flags) (ex : string) (tree : gmap string node)
  : outcome value * state (gmap string node) :=
  call (c P opts) ex (boot tree).

(** What the task wrapper makes of the outcome of the function it wraps. *)
Definition wrapped (r : outcome value) : outcome value :=
  match r with
  | Ret _ => Ret VNone
  | Raise (CalledProcessError returncode _ output) =>
      match py_decode output with
      | Ret _ => Raise (SystemExit (VInt returncode))
      | Raise e => Raise e
      end
  | Raise e => Raise e
  end.

(** Registration order of names, as [sort] compares them. *)
Definition name_le {FS} (c d : Command FS) : Prop := String.le (name c) (name d).

Definition named {FS} (n : string) (c : Command FS) : bool := String.eqb (name c) n.

(** The command a prefix resolves to, when exactly one name starts with it. *)
Definition resolves {FS} (commands : list (Command FS)) (s : string)
  : option (Command FS) :=
  match matching commands s with
  | [c] => Some c
  | _ => None
  end.

(** What the task wrapper prints once the function is over. *)
Definition epilogue (r : outcome value) : string :=
  match r with
  | Ret _ => "Done" +:+ nl
  | Raise (CalledProcessError _ _ output) =>
      match py_decode output with
      | Ret text => Str.strip text +:+ nl
      | Raise _ => EmptyString
      end
  | Raise (SystemExit _) => "Failed" +:+ nl
  | Raise _ => EmptyString
  end.

(** The line that announces a task. *)
Definition announcement (action target : string) : string :=
  Str.title action +:+ " " +:+ target +:+ "...".

(** ** Properties *)

Section Facts.
Context {FS : Type} `{Platform FS}.
Implicit Types (st : state FS) (s text : string).
Implicit Types (commands : list (Command FS)) (c : Command FS).

Local Open Scope py_scope.

Lemma write_eq text st : write text st = (Ret tt, printed text st).
Proof. unfold printed, write. by destruct (sys_stdout st). Qed.


Lemma append_cons (c : ascii) (a b : string) : String c a +:+ b = String c (a +:+ b).
Proof. reflexivity. Qed.

Lemma append_empty_r s : s +:+ EmptyString = s.
Proof. induction s as [|c s IH]; [done | by rewrite append_cons, IH]. Qed.

Lemma append_assoc (a b c : string) : (a +:+ b) +:+ c = a +:+ (b +:+ c).
Proof. induction a as [|x a IH]; [done | by rewrite !append_cons, IH]. Qed.

Lemma print_eq s e st : print [s] e st = (Ret VNone, printed (s +:+ e) st).
Proof. unfold print, bind. by rewrite write_eq. Qed.

Lemma print_nothing_eq e st : print [] e st = (Ret VNone, printed e st).
Proof. unfold print, bind. by rewrite write_eq. Qed.

Lemma fs_printed text st : fs (printed text st) = fs st.
Proof. unfold printed, write. by destruct (sys_stdout st). Qed.

Lemma journal_printed text st : journal (printed text st) = journal st.
Proof. unfold printed, write. by destruct (sys_stdout st). Qed.

Lemma printed_printed a b st : printed b (printed a st) = printed (a +:+ b) st.
Proof.
  unfold printed, write.
  destruct st as [f out err con jou]; destruct out; simpl;
    unfold to_console, set_streams; simpl; by rewrite append_assoc.
Qed.



(** *** Splitting *)

Lemma split_class_cons in_class s :
  exists piece pieces, Str.split_class in_class s = piece :: pieces.
Proof.
  destruct s as [|c s]; simpl; [by eauto |].
  destruct (in_class c); [by eauto |].
  destruct (Str.split_class in_class s); by eauto.
Qed.

Lemma split_length s :
  length (RGX_LIST_split s) = S (length (delimiters s)).
Proof.
  unfold RGX_LIST_split.
  induction s as [|c s IH]; simpl; [done |].
  destruct (RGX_LIST c); simpl; [by rewrite IH |].
  destruct (split_class_cons RGX_LIST s) as (piece & pieces & E).
  rewrite E in IH |- *. exact IH.
Qed.

Lemma split_pieces_clean s :
  Forall (fun piece => has_delimiter piece = false) (RGX_LIST_split s).
Proof.
  unfold RGX_LIST_split.
  induction s as [|c s IH]; simpl.
  - by repeat constructor.
  - destruct (RGX_LIST c) eqn:Ec.
    + by constructor.
    + destruct (Str.split_class RGX_LIST s) as [|piece pieces].
      * repeat constructor. simpl. by rewrite Ec.
      * inversion IH as [|? ? Hp Hps]; subst.
        constructor; [simpl; by rewrite Ec, Hp | done].
Qed.

Lemma split_interleave s :
  interleave (RGX_LIST_split s) (delimiters s) = s.
Proof.
  unfold RGX_LIST_split.
  induction s as [|c s IH]; simpl; [done |].
  destruct (RGX_LIST c) eqn:Ec; simpl; [by rewrite IH |].
  destruct (split_class_cons RGX_LIST s) as (piece & pieces & E).
  rewrite E in IH |- *.
  destruct (delimiters s); simpl in *; [by rewrite IH |].
  by rewrite append_cons, IH.
Qed.

(** C5 as the specification words it does not hold: two adjacent delimiters are
    not one separator for the code; the empty piece between them is kept. *)
Lemma C5_adjacent_delimiters_not_a_run :
  RGX_LIST_split "a, b" = ["a"; EmptyString; "b"]
  /\ split_on_runs "a, b" = ["a"; "b"]
  /\ RGX_LIST_split "a, b" <> split_on_runs "a, b".
Proof.
  split; [reflexivity |].
  split; [reflexivity | discriminate].
Qed.

(** C5 (amended): a raw value is split at every single space, comma or
    semicolon: it yields one more piece than it has delimiter characters,
    no piece holds a delimiter, and the pieces with the delimiters put back
    between them spell the value; ["a,b c;d"] gives [a], [b], [c], [d]. *)
Theorem C5_split_at_each_delimiter (value : string) :
  length (RGX_LIST_split value) = S (length (delimiters value))
  /\ Forall (fun piece => has_delimiter piece = false) (RGX_LIST_split value)
  /\ interleave (RGX_LIST_split value) (delimiters value) = value
  /\ RGX_LIST_split "a,b c;d" = ["a"; "b"; "c"; "d"].
Proof.
  split; [apply split_length |].
  split; [apply split_pieces_clean |].
  split; [apply split_interleave | reflexivity].
Qed.

(** *** Resolving a command by prefix *)

Lemma printed_empty st : printed EmptyString st = st.
Proof.
  unfold printed, write. destruct st as [f out err con jou]; destruct out; simpl;
    unfold to_console, set_streams; simpl; by rewrite append_empty_r.
Qed.

Lemma list_matches matches st :
  for_each matches (fun c : Command FS => print ["  " +:+ name c] nl ;; ret tt) st
  = (Ret tt, printed (listing matches) st).
Proof.
  revert st. induction matches as [|c matches IH]; intros st; simpl.
  - unfold ret. by rewrite printed_empty.
  - unfold bind at 1. unfold bind at 1. rewrite print_eq. unfold ret at 1.
    rewrite IH, printed_printed. by rewrite !append_assoc.
Qed.

Lemma find_best_unique commands s st c :
  matching commands s = [c] -> find_best commands s st = (Ret c, st).
Proof. unfold find_best, matching. by intros ->. Qed.

Lemma find_best_unknown commands s st :
  matching commands s = [] ->
  find_best commands s st
  = (Raise (SystemExit (VInt 1)), printed ("Unknown command '" +:+ s +:+ "''" +:+ nl) st).
Proof.
  unfold find_best, matching. intros ->.
  unfold bind. rewrite print_eq. unfold sys_exit, raise.
  by rewrite !append_assoc.
Qed.

Lemma find_best_ambiguous commands s st :
  (2 <= length (matching commands s))%nat ->
  find_best commands s st
  = (Raise (SystemExit (VInt 1)),
     printed ("Ambigious command '" +:+ s +:+ "'; choose from the following:" +:+ nl
              +:+ listing (matching commands s)) st).
Proof.
  unfold find_best. fold (matching commands s).
  intros Hlen.
  destruct (matching commands s) as [|c [|d l]] eqn:E; simpl in Hlen; [lia | lia |].
  cbv beta iota zeta. unfold bind at 1. rewrite print_eq.
  unfold bind at 1. rewrite list_matches. unfold sys_exit, raise.
  rewrite printed_printed. by rewrite !append_assoc.
Qed.

Lemma matching_sound commands s c :
  c ∈ matching commands s -> c ∈ commands /\ Str.startswith (name c) s = true.
Proof.
  unfold matching. rewrite !list_elem_of_In, filter_In. tauto.
Qed.

(** C4: [find_best] returns the one registered command whose name starts
    with the prefix when exactly one does; with none it reports the prefix
    as unknown, with several it reports it as ambiguous and lists every
    matching name, and in both cases it exits with status 1.  Among
    migrate, test, submit, restore and checkin, [mi] and [m] resolve to
    migrate and [zz] is unknown. *)
Theorem C4_find_best_resolves_unique_prefix
    (commands : list (Command FS)) (s : string) (st : state FS) (opts : Flags) :
  (forall c, matching commands s = [c] ->
     find_best commands s st = (Ret c, st)
     /\ c ∈ commands /\ Str.startswith (name c) s = true)
  /\ (matching commands s = [] ->
      find_best commands s st
      = (Raise (SystemExit (VInt 1)),
         printed ("Unknown command '" +:+ s +:+ "''" +:+ nl) st))
  /\ ((2 <= length (matching commands s))%nat ->
      find_best commands s st
      = (Raise (SystemExit (VInt 1)),
         printed ("Ambigious command '" +:+ s +:+ "'; choose from the following:" +:+ nl
                  +:+ listing (matching commands s)) st))
  /\ names (cmd_mgr opts) = ["checkin"; "migrate"; "restore"; "submit"; "test"]
  /\ find_best (cmd_mgr opts) "mi" st = (Ret (cmd_migrate opts), st)
  /\ find_best (cmd_mgr opts) "m" st = (Ret (cmd_migrate opts), st)
  /\ find_best (cmd_mgr opts) "zz" st
     = (Raise (SystemExit (VInt 1)), printed ("Unknown command 'zz''" +:+ nl) st).
Proof.
  split.
  { intros c E. split; [by apply find_best_unique |].
    apply matching_sound. rewrite E. by left. }
  split; [apply find_best_unknown |].
  split; [apply find_best_ambiguous |].
  split; [reflexivity |].
  split; [by apply find_best_unique |].
  split; [by apply find_best_unique |].
  by rewrite find_best_unknown.
Qed.

(** *** Accumulating a list-valued option *)

Lemma map_each_parse (values : list string) st :
  map_each ExtendAction_parse values st = (Ret values, st).
Proof.
  revert st. induction values as [|v values IH]; intros st; [done |].
  simpl. unfold bind at 1. unfold ExtendAction_parse at 1, ret at 1.
  unfold bind. by rewrite IH.
Qed.

Lemma extend_eq (current : option (list string)) (value : string) st :
  ExtendAction_extend ExtendAction_parse current value st
  = (Ret (Some (default [] current ++ RGX_LIST_split value)), st).
Proof. unfold ExtendAction_extend, bind. by rewrite map_each_parse. Qed.







(** *** The dispatch loop *)

Lemma commands_loop (commands : list (Command FS)) (ex : string) st :
  for_each commands (fun command =>
    r <- call command ex ;; if in_None_0 r then ret tt else sys_exit r) st
  = run_calls (map (fun c => (c, ex)) commands) st.
Proof.
  revert st. induction commands as [|c commands IH]; intros st; [done |].
  simpl. unfold bind at 1. unfold bind at 1.
  destruct (call c ex st) as [[r | e] st']; [| done].
  destruct (in_None_0 r); [apply IH | done].
Qed.

Lemma run_calls_app (calls calls' : list (Command FS * string)) st :
  run_calls (calls ++ calls') st
  = match run_calls calls st with
    | (Ret _, st') => run_calls calls' st'
    | (Raise e, st') => (Raise e, st')
    end.
Proof.
  revert st. induction calls as [|[c ex] calls IH]; intros st; [done |].
  simpl. destruct (call c ex st) as [[r | e] st']; [| done].
  destruct (in_None_0 r); [apply IH | done].
Qed.

Lemma targets_loop (ignored : list string) (commands : list (Command FS))
    (exs : list string) st :
  for_each exs (fun ex =>
    if bool_decide (ex ∈ ignored) then ret tt
    else for_each commands (fun command =>
           r <- call command ex ;; if in_None_0 r then ret tt else sys_exit r)) st
  = run_calls (plan (not_ignored ignored exs) commands) st.
Proof.
  revert st. induction exs as [|ex exs IH]; intros st; [done |].
  simpl. unfold bind at 1. destruct (bool_decide (ex ∈ ignored)); simpl.
  - apply IH.
  - rewrite commands_loop. fold (plan (not_ignored ignored exs) commands).
    rewrite run_calls_app.
    destruct (run_calls (map (fun c => (c, ex)) commands) st) as [[[] | e] st'];
      [apply IH | done].
Qed.

Lemma main_spec_dispatch (opts : Options FS) st :
  main opts st = spec_dispatch (ignore opts) (command opts) (exercise opts) st.
Proof.
  unfold main. revert st.
  induction (exercise opts) as [|pattern patterns IH]; intros st; [done |].
  simpl. unfold bind at 1. unfold bind at 1. unfold glob_glob at 1.
  rewrite targets_loop.
  destruct (run_calls _ st) as [[[] | e] st']; [apply IH | done].
Qed.

(** The first planned call whose result is neither [None] nor [0] ends the
    run: the calls before it have run, the calls after it have not. *)
Lemma run_calls_stops (before after : list (Command FS * string))
    (c : Command FS) (ex : string) (r : value) st st1 st2 :
  run_calls before st = (Ret tt, st1) ->
  call c ex st1 = (Ret r, st2) ->
  in_None_0 r = false ->
  run_calls (before ++ (c, ex) :: after) st = (Raise (SystemExit r), st2).
Proof.
  intros Hbefore Hcall Hr. rewrite run_calls_app, Hbefore. simpl.
  by rewrite Hcall, Hr.
Qed.

Lemma run_calls_continues (c : Command FS) (ex : string) (r : value)
    (after : list (Command FS * string)) st st1 :
  call c ex st = (Ret r, st1) ->
  in_None_0 r = true ->
  run_calls ((c, ex) :: after) st = run_calls after st1.
Proof. intros Hcall Hr. simpl. by rewrite Hcall, Hr. Qed.

(** C6: the dispatch loop takes the patterns in order; it expands each as a
    glob when its turn comes, drops the targets in the ignore list, and
    makes the calls of the plan one after the other, the commands in their
    order inside each target, the targets in expansion order; a call whose
    result is [None] or [0] lets the loop go on, the first other result
    ends the process with that result and no later call is made.  On
    targets ex1, ex2 and commands cmdA, cmdB the calls are cmdA(ex1),
    cmdB(ex1), cmdA(ex2), cmdB(ex2). *)
Theorem C6_dispatch_order (opts : Options FS) (st : state FS) :
  main opts st = spec_dispatch (ignore opts) (command opts) (exercise opts) st
  /\ (forall cmdA cmdB : Command FS,
        plan ["ex1"; "ex2"] [cmdA; cmdB]
        = [(cmdA, "ex1"); (cmdB, "ex1"); (cmdA, "ex2"); (cmdB, "ex2")])
  /\ (forall before after c ex r st1 st2,
        run_calls before st = (Ret tt, st1) ->
        call c ex st1 = (Ret r, st2) ->
        in_None_0 r = false ->
        run_calls (before ++ (c, ex) :: after) st = (Raise (SystemExit r), st2))
  /\ (forall c ex r after st1,
        call c ex st = (Ret r, st1) ->
        in_None_0 r = true ->
        run_calls ((c, ex) :: after) st = run_calls after st1)
  /\ run_main (scenario 0 0) (mkOptions [] [announce "cmdA" VNone; announce "cmdB" (VInt 0)]
                         ["ex1"; "ex2"]) tree_ex1_ex2
     = (Ret tt,
        mkState tree_ex1_ex2 Terminal Terminal
                "cmdA(ex1) cmdB(ex1) cmdA(ex2) cmdB(ex2) " [])
  /\ run_main (scenario 0 0) (mkOptions [] [announce "cmdA" VNone; announce "cmdB" (VInt 3);
                             announce "cmdC" VNone]
                         ["ex1"; "ex2"]) tree_ex1_ex2
     = (Raise (SystemExit (VInt 3)),
        mkState tree_ex1_ex2 Terminal Terminal "cmdA(ex1) cmdB(ex1) " [])
  /\ run_main (scenario 0 0) (mkOptions ["ex1"] [announce "cmdA" VNone; announce "cmdB" VNone]
                         ["ex1"; "ex2"; "ex3"]) tree_ex1_ex2
     = (Ret tt, mkState tree_ex1_ex2 Terminal Terminal "cmdA(ex2) cmdB(ex2) " []).
Proof.
  split; [apply main_spec_dispatch |].
  split; [done |].
  split; [intros; by eapply run_calls_stops |].
  split; [intros; by eapply run_calls_continues |].
  split; [vm_compute; reflexivity |].
  split; vm_compute; reflexivity.
Qed.

(** *** The task wrapper *)

Lemma task_unfold (opts : Flags) (action : string) (function : string -> Py FS value)
    (target : string) st :
  task opts action function target st
  = match attempt opts function target
            (printed (Str.title action +:+ " " +:+ target +:+ "...") st) with
    | (Ret _, st2) => (Ret VNone, printed ("Done" +:+ nl) st2)
    | (Raise (CalledProcessError returncode _ output), st2) =>
        match py_decode output with
        | Ret text =>
            (Raise (SystemExit (VInt returncode)), printed (Str.strip text +:+ nl) st2)
        | Raise e => (Raise e, st2)
        end
    | (Raise (SystemExit code), st2) =>
        (Raise (SystemExit code), printed ("Failed" +:+ nl) st2)
    | (Raise e, st2) => (Raise e, st2)
    end.
Proof.
  unfold task. unfold bind at 1. rewrite print_eq, append_empty_r.
  unfold bind at 1. unfold try_except. unfold bind at 1.
  fold (attempt opts function target).
  destruct (attempt opts function target _) as [[v | e] st2].
  - by rewrite print_eq.
  - destruct e; try done.
    + unfold bind at 1. unfold lift.
      destruct (py_decode output) as [text | e]; [| done].
      unfold bind at 1. by rewrite print_eq.
    + unfold bind at 1. by rewrite print_eq.
Qed.

Lemma attempt_verbose (opts : Flags) (function : string -> Py FS value) target st :
  truthy (verbose opts) = true ->
  attempt opts function target st = function target (printed nl st).
Proof.
  intros Hv. unfold attempt. rewrite Hv. unfold bind. by rewrite print_nothing_eq.
Qed.

Lemma attempt_quiet (opts : Flags) (function : string -> Py FS value) target st :
  truthy (verbose opts) = false ->
  attempt opts function target st
  = match function target (set_streams (StringIO EmptyString) (StringIO EmptyString) st) with
    | (r, st') => (r, set_streams (sys_stdout st) (sys_stderr st) st')
    end.
Proof. intros Hv. unfold attempt. by rewrite Hv. Qed.

(** Whatever [function] does when it is called as [st0] prescribes, the
    attempt does, with the streams put back. *)
Lemma attempt_cases (opts : Flags) (function : string -> Py FS value) target st :
  exists st0,
    fs st0 = fs st /\ journal st0 = journal st
    /\ match function target st0 with
       | (r, st') =>
           exists st'',
             attempt opts function target st = (r, st'')
             /\ fs st'' = fs st' /\ journal st'' = journal st'
       end.
Proof.
  destruct (truthy (verbose opts)) eqn:Hv.
  - exists (printed nl st). rewrite fs_printed, journal_printed.
    split; [done |]. split; [done |].
    rewrite attempt_verbose by done.
    destruct (function target (printed nl st)) as [r st']. by exists st'.
  - exists (set_streams (StringIO EmptyString) (StringIO EmptyString) st).
    split; [done |]. split; [done |].
    rewrite attempt_quiet by done.
    destruct (function target _) as [r st']. by eexists.
Qed.


(** *** Shelling out *)

Lemma terminal_unfold (args : list string) st :
  terminal args st
  = match spawn args (fs st) with
    | (status, text, fs') =>
        let st' :=
          record (Spawned args)
                 (to_console text (set_fs fs' (printed (Str.join " " args +:+ nl) st))) in
        if status =? 0 then (Raise (AttributeError "int" "decode"), st')
        else (Raise (CalledProcessError status args VNone), st')
    end.
Proof.
  unfold terminal. unfold bind at 1. rewrite print_eq.
  unfold bind at 1. unfold check_call. rewrite fs_printed.
  destruct (spawn args (fs st)) as [[status text] fs'].
  by destruct (status =? 0).
Qed.

Lemma terminal_raises (args : list string) st :
  exists e st',
    terminal args st = (Raise e, st')
    /\ fs st' = (spawn args (fs st)).2
    /\ journal st' = journal st ++ [Spawned args]
    /\ e = (if (spawn args (fs st)).1.1 =? 0
            then AttributeError "int" "decode"
            else CalledProcessError (spawn args (fs st)).1.1 args VNone).
Proof.
  rewrite terminal_unfold.
  destruct (spawn args (fs st)) as [[status text] fs']. simpl.
  destruct (status =? 0); eexists _, _; (split; [done |]); simpl;
    by rewrite journal_printed.
Qed.

Lemma checkin_raises (exercise : string) st :
  exists e st',
    checkin exercise st = (Raise e, st')
    /\ journal st' = journal st ++ [Spawned ["git"; "add"; exercise]]
    /\ e = (if (spawn ["git"; "add"; exercise] (fs st)).1.1 =? 0
            then AttributeError "int" "decode"
            else CalledProcessError (spawn ["git"; "add"; exercise] (fs st)).1.1
                                    ["git"; "add"; exercise] VNone).
Proof.
  destruct (terminal_raises ["git"; "add"; exercise] st) as (e & st' & Ht & _ & Hj & He).
  exists e, st'. unfold checkin, git, bind. by rewrite Ht.
Qed.

Lemma submit_raises (exercise : string) st :
  let args := ["exercism"; "submit";
               path_join exercise (Str.replace "-" "_" exercise +:+ ".py")] in
  exists e st',
    submit exercise st = (Raise e, st')
    /\ journal st' = journal st ++ [Spawned args]
    /\ e = (if (spawn args (fs st)).1.1 =? 0
            then AttributeError "int" "decode"
            else CalledProcessError (spawn args (fs st)).1.1 args VNone).
Proof.
  intros args.
  destruct (terminal_raises args st) as (e & st' & Ht & _ & Hj & He).
  exists e, st'. unfold submit, exercism, bind. fold args. by rewrite Ht.
Qed.

Lemma restore_raises (exercise : string) st :
  exists e st', restore exercise st = (Raise e, st')
    /\ forall fs1, rmtree exercise (fs st) = Some fs1 ->
         e = (if (spawn ["git"; "checkout"; "--"; exercise] fs1).1.1 =? 0
              then AttributeError "int" "decode"
              else CalledProcessError (spawn ["git"; "checkout"; "--"; exercise] fs1).1.1
                                      ["git"; "checkout"; "--"; exercise] VNone).
Proof.
  unfold restore. unfold bind at 1. rewrite print_eq.
  unfold bind at 1. unfold shutil_rmtree. rewrite fs_printed.
  destruct (rmtree exercise (fs st)) as [fs1 |] eqn:Hrm.
  - set (st1 := record (Removed exercise)
                       (set_fs fs1 (printed (("Removing " +:+ exercise +:+ "/") +:+ nl) st))).
    destruct (terminal_raises ["git"; "checkout"; "--"; exercise] st1)
      as (e & st' & Ht & _ & _ & He).
    exists e, st'. unfold bind, git. fold st1. rewrite Ht.
    split; [done |]. intros fs1' [= <-]. exact He.
  - destruct (rmtree_failure exercise (fs st)) as [culprit fs'].
    eexists _, _. split; [done |]. by intros fs1 [=].
Qed.

Lemma migrate_marker (exercise : string) st :
  isfile (fs st) (path_join exercise ".solution.json") = true ->
  migrate exercise st
  = (Ret VNone, printed (exercise +:+ " has already been migrated" +:+ nl) st).
Proof.
  intros Hm. unfold migrate. unfold bind at 1. unfold os_path_isfile.
  rewrite Hm. unfold bind. by rewrite print_eq, append_assoc.
Qed.

Lemma migrate_raises (exercise : string) st :
  let args := ["exercism"; "download"; "-t"; "python"; "-e"; exercise] in
  isfile (fs st) (path_join exercise ".solution.json") = false ->
  exists e st',
    migrate exercise st = (Raise e, st')
    /\ fs st' = (spawn args (fs st)).2
    /\ journal st' = journal st ++ [Spawned args]
    /\ e = (if (spawn args (fs st)).1.1 =? 0
            then AttributeError "int" "decode"
            else CalledProcessError (spawn args (fs st)).1.1 args VNone).
Proof.
  intros args Hm.
  destruct (terminal_raises args st) as (e & st' & Ht & Hf & Hj & He).
  exists e, st'. unfold migrate. unfold bind at 1. unfold os_path_isfile.
  rewrite Hm. unfold bind at 1. unfold exercism. fold args. by rewrite Ht.
Qed.

(** The wrapper calls the function once, in a state [st0] that differs from
    the caller's in its streams and console only, and turns its outcome
    into [wrapped] of it; it touches neither files nor journal itself. *)
Lemma task_cases (opts : Flags) (action : string) (function : string -> Py FS value)
    (target : string) st :
  exists st0,
    fs st0 = fs st /\ journal st0 = journal st
    /\ match function target st0 with
       | (r, st') =>
           exists st'',
             task opts action function target st = (wrapped r, st'')
             /\ fs st'' = fs st' /\ journal st'' = journal st'
       end.
Proof.
  destruct (attempt_cases opts function target
              (printed (Str.title action +:+ " " +:+ target +:+ "...") st))
    as (st0 & Hf & Hj & Hrun).
  exists st0. rewrite Hf, Hj, fs_printed, journal_printed.
  split; [done |]. split; [done |].
  destruct (function target st0) as [r st'].
  destruct Hrun as (st2 & Ha & Hf2 & Hj2).
  rewrite task_unfold, Ha.
  destruct r as [v | e]; simpl.
  - eexists. split; [done |]. by rewrite fs_printed, journal_printed.
  - destruct e; try (by eexists).
    + destruct (py_decode output); [| by eexists].
      eexists. split; [done |]. by rewrite fs_printed, journal_printed.
    + eexists. split; [done |]. by rewrite fs_printed, journal_printed.
Qed.

Lemma task_result (opts : Flags) (action : string) (function : string -> Py FS value)
    (target : string) st :
  match task opts action function target st with
  | (Ret v, _) => v = VNone
  | (Raise _, _) => True
  end.
Proof.
  destruct (task_cases opts action function target st) as (st0 & _ & _ & Hrun).
  destruct (function target st0) as [r st'].
  destruct Hrun as (st'' & -> & _).
  destruct r as [v | e]; simpl; [done |].
  destruct e; try done. by destruct (py_decode output).
Qed.

Lemma main_exits_with_result (c : Command FS) (ignored : list string)
    (rest : list (Command FS)) (pattern : string) (patterns : list string)
    (ex : string) (r : value) st st1 :
  glob (fs st) pattern = [ex] ->
  ex ∉ ignored ->
  call c ex st = (Ret r, st1) ->
  in_None_0 r = false ->
  main (mkOptions ignored (c :: rest) (pattern :: patterns)) st
  = (Raise (SystemExit r), st1).
Proof.
  intros Hglob Hex Hcall Hr. rewrite main_spec_dispatch. simpl.
  rewrite Hglob. unfold not_ignored. simpl.
  rewrite bool_decide_eq_false_2 by done. simpl.
  by rewrite Hcall, Hr.
Qed.

(** C1: the dispatch loop does end the process with a result that is
    neither [None] nor [0]; but the task wrapper never hands it one: it
    drops what the function returns, and when it returns at all it returns
    [None].  A failing test run (result code 1) therefore reads as success:
    the loop goes on and the process ends with status 0. *)
Theorem C1_test_result_code_is_dropped (opts : Flags) (action : string)
    (function : string -> Py FS value) (target : string) (st : state FS) :
  (forall (c : Command FS) ignored rest pattern patterns ex r st1,
      glob (fs st) pattern = [ex] ->
      ex ∉ ignored ->
      call c ex st = (Ret r, st1) ->
      in_None_0 r = false ->
      main (mkOptions ignored (c :: rest) (pattern :: patterns)) st
      = (Raise (SystemExit r), st1))
  /\ match task opts action function target st with
     | (Ret v, _) => v = VNone
     | (Raise _, _) => True
     end
  /\ (@test _ (scenario 0 1) quiet "leap" (boot tree_migrated)).1 = Ret (VInt 1)
  /\ run_command (scenario 0 1) (@cmd_test _) quiet "leap" tree_migrated
     = (Ret VNone,
        mkState tree_migrated Terminal Terminal ("Testing leap...Done" +:+ nl)
                [PytestRun [VStr "-x"; VStr "leap"]])
  /\ run_main (scenario 0 1) (mkOptions [] [@cmd_test _ (scenario 0 1) quiet] ["leap"])
              tree_migrated
     = (Ret tt,
        mkState tree_migrated Terminal Terminal ("Testing leap...Done" +:+ nl)
                [PytestRun [VStr "-x"; VStr "leap"]]).
Proof.
  split; [intros; by eapply main_exits_with_result |].
  split; [apply task_result |].
  split; [vm_compute; reflexivity |].
  split; vm_compute; reflexivity.
Qed.

(** A task that only shells out: what the wrapper raises for the exception
    the function raised. *)
Lemma task_of_raise (opts : Flags) (action : string) (function : string -> Py FS value)
    (target : string) st (Q : exn -> state FS -> Prop) :
  (forall st0, fs st0 = fs st -> journal st0 = journal st ->
     exists e st', function target st0 = (Raise e, st') /\ Q e st') ->
  exists e st' st'',
    task opts action function target st = (wrapped (Raise e), st'')
    /\ Q e st' /\ fs st'' = fs st' /\ journal st'' = journal st'.
Proof.
  intros Hfun.
  destruct (task_cases opts action function target st) as (st0 & Hf & Hj & Hrun).
  destruct (Hfun st0 Hf Hj) as (e & st' & Hcall & HQ).
  rewrite Hcall in Hrun. destruct Hrun as (st'' & Ht & Hf' & Hj').
  by exists e, st', st''.
Qed.

(** C2: when the external program exits with status 0, [terminal] calls
    [decode] on the integer 0 that [check_call] returned and raises an
    attribute error; it never returns normally.  So checkin, submit,
    restore (once the tree is removed) and migrate (when the marker file is
    absent) all fail with that error although their tool succeeded. *)
Theorem C2_terminal_never_returns (args : list string) (st : state FS)
    (opts : Flags) (ex : string) :
  ((spawn args (fs st)).1.1 = 0 ->
   exists st',
     terminal args st = (Raise (AttributeError "int" "decode"), st')
     /\ fs st' = (spawn args (fs st)).2
     /\ journal st' = journal st ++ [Spawned args])
  /\ (exists e st', terminal args st = (Raise e, st'))
  /\ ((spawn ["git"; "add"; ex] (fs st)).1.1 = 0 ->
      (call (cmd_checkin opts) ex st).1 = Raise (AttributeError "int" "decode"))
  /\ ((spawn ["exercism"; "submit"; path_join ex (Str.replace "-" "_" ex +:+ ".py")]
             (fs st)).1.1 = 0 ->
      (call (cmd_submit opts) ex st).1 = Raise (AttributeError "int" "decode"))
  /\ (forall fs1, rmtree ex (fs st) = Some fs1 ->
      (spawn ["git"; "checkout"; "--"; ex] fs1).1.1 = 0 ->
      (call (cmd_restore opts) ex st).1 = Raise (AttributeError "int" "decode"))
  /\ (isfile (fs st) (path_join ex ".solution.json") = false ->
      (spawn ["exercism"; "download"; "-t"; "python"; "-e"; ex] (fs st)).1.1 = 0 ->
      (call (cmd_migrate opts) ex st).1 = Raise (AttributeError "int" "decode")).
Proof.
  split.
  { intros H0. destruct (terminal_raises args st) as (e & st' & Ht & Hf & Hj & He).
    rewrite H0 in He. simpl in He. subst e. by exists st'. }
  split.
  { destruct (terminal_raises args st) as (e & st' & Ht & _). by exists e, st'. }
  split.
  { intros H0. simpl.
    destruct (task_of_raise opts "checking in" checkin ex st
                (fun e _ => e = AttributeError "int" "decode"))
      as (e & st' & st'' & -> & -> & _); [| done].
    intros st0 Hf _.
    destruct (checkin_raises ex st0) as (e & st' & Hc & _ & He).
    rewrite Hf, H0 in He. by exists e, st'. }
  split.
  { intros H0. simpl.
    destruct (task_of_raise opts "submitting" submit ex st
                (fun e _ => e = AttributeError "int" "decode"))
      as (e & st' & st'' & -> & -> & _); [| done].
    intros st0 Hf _.
    destruct (submit_raises ex st0) as (e & st' & Hc & _ & He).
    rewrite Hf, H0 in He. by exists e, st'. }
  split.
  { intros fs1 Hrm H0. simpl.
    destruct (task_of_raise opts "restoring" restore ex st
                (fun e _ => e = AttributeError "int" "decode"))
      as (e & st' & st'' & -> & -> & _); [| done].
    intros st0 Hf _.
    destruct (restore_raises ex st0) as (e & st' & Hc & He).
    rewrite Hf in He. specialize (He fs1 Hrm). rewrite H0 in He.
    by exists e, st'. }
  intros Hm H0. simpl.
  destruct (task_of_raise opts "migrating" migrate ex st
              (fun e _ => e = AttributeError "int" "decode"))
    as (e & st' & st'' & -> & -> & _); [| done].
  intros st0 Hf _.
  destruct (migrate_raises ex st0) as (e & st' & Hc & _ & _ & He);
    [by rewrite Hf |].
  rewrite Hf, H0 in He. by exists e, st'.
Qed.

(** C3 is not met by the code.  [check_call] captures nothing, so the
    [CalledProcessError] it raises on a non-zero exit has [output] [None];
    the handler of the task wrapper calls [decode] on it and raises an
    attribute error: no output is printed and the exit code of the
    subprocess is lost.  Had the exception carried bytes, the handler would
    print them stripped and exit with the subprocess's code. *)
Theorem C3_subprocess_failure_loses_exit_code (opts : Flags) (ex : string)
    (st : state FS) :
  (forall returncode cmd, wrapped (Raise (CalledProcessError returncode cmd VNone))
                          = Raise (AttributeError "NoneType" "decode"))
  /\ ((spawn ["git"; "add"; ex] (fs st)).1.1 <> 0 ->
      (call (cmd_checkin opts) ex st).1 = Raise (AttributeError "NoneType" "decode"))
  /\ ((spawn ["exercism"; "submit"; path_join ex (Str.replace "-" "_" ex +:+ ".py")]
             (fs st)).1.1 <> 0 ->
      (call (cmd_submit opts) ex st).1 = Raise (AttributeError "NoneType" "decode"))
  /\ run_command (scenario 2 0) (@cmd_checkin _) quiet "leap" tree_migrated
     = (Raise (AttributeError "NoneType" "decode"),
        mkState tree_migrated Terminal Terminal "Checking In leap..."
                [Spawned ["git"; "add"; "leap"]])
  /\ (forall action function target returncode cmd b st2,
        attempt opts function target
                (printed (Str.title action +:+ " " +:+ target +:+ "...") st)
        = (Raise (CalledProcessError returncode cmd (VBytes b)), st2) ->
        Str.utf8_valid b = true ->
        task opts action function target st
        = (Raise (SystemExit (VInt returncode)), printed (Str.strip b +:+ nl) st2)).
Proof.
  split; [done |].
  split.
  { intros H0. apply Z.eqb_neq in H0. simpl.
    destruct (task_of_raise opts "checking in" checkin ex st
                (fun e _ => exists rc cmd, e = CalledProcessError rc cmd VNone))
      as (e & st' & st'' & -> & (rc & cmd & ->) & _); [| done].
    intros st0 Hf _.
    destruct (checkin_raises ex st0) as (e & st' & Hc & _ & He).
    rewrite Hf, H0 in He. exists e, st'. split; [done |]. by eexists _, _. }
  split.
  { intros H0. apply Z.eqb_neq in H0. simpl.
    destruct (task_of_raise opts "submitting" submit ex st
                (fun e _ => exists rc cmd, e = CalledProcessError rc cmd VNone))
      as (e & st' & st'' & -> & (rc & cmd & ->) & _); [| done].
    intros st0 Hf _.
    destruct (submit_raises ex st0) as (e & st' & Hc & _ & He).
    rewrite Hf, H0 in He. exists e, st'. split; [done |]. by eexists _, _. }
  split; [vm_compute; reflexivity |].
  intros action function target returncode cmd b st2 Ha Hb.
  rewrite task_unfold, Ha. simpl. by rewrite Hb.
Qed.

(** C8: with the marker file [.solution.json] in the exercise directory,
    migrate returns [None] without raising, runs no external program,
    copies and removes nothing, and leaves the file system as it was. *)
Theorem C8_migrate_marker_noop (opts : Flags) (exercise : string) (st : state FS) :
  isfile (fs st) (path_join exercise ".solution.json") = true ->
  migrate exercise st
  = (Ret VNone, printed (exercise +:+ " has already been migrated" +:+ nl) st)
  /\ exists st',
       call (cmd_migrate opts) exercise st = (Ret VNone, st')
       /\ fs st' = fs st
       /\ journal st' = journal st.
Proof.
  intros Hm. split; [by apply migrate_marker |]. simpl.
  destruct (task_cases opts "migrating" migrate exercise st) as (st0 & Hf & Hj & Hrun).
  rewrite migrate_marker in Hrun by (by rewrite Hf).
  destruct Hrun as (st'' & Ht & Hf' & Hj').
  exists st''. rewrite Hf', Hj', fs_printed, journal_printed. by rewrite Hf, Hj.
Qed.

(** C9 is not met by the code.  Without the marker file migrate runs
    the download and the call of [terminal] never returns: whatever the
    tool does, migrate ends with an exception right after it, and its only
    effect is that one external program; no file is copied and no
    directory removed.  After a successful download that left
    [two-fer-2], the directory is still there and [two-fer] has no
    marker file. *)
Theorem C9_migrate_never_copies (opts : Flags) (exercise : string) (st : state FS) :
  (isfile (fs st) (path_join exercise ".solution.json") = false ->
   exists e st',
     call (cmd_migrate opts) exercise st = (Raise e, st')
     /\ fs st'
        = (spawn ["exercism"; "download"; "-t"; "python"; "-e"; exercise] (fs st)).2
     /\ journal st'
        = journal st ++ [Spawned ["exercism"; "download"; "-t"; "python"; "-e"; exercise]])
  /\ (run_command (mem_platform tool_download (runner_exit 0)) (@cmd_migrate _)
                  quiet "two-fer" tree_two_fer).1
     = Raise (AttributeError "int" "decode")
  /\ journal (run_command (mem_platform tool_download (runner_exit 0)) (@cmd_migrate _)
                          quiet "two-fer" tree_two_fer).2
     = [Spawned ["exercism"; "download"; "-t"; "python"; "-e"; "two-fer"]]
  /\ mem_isdir (fs (run_command (mem_platform tool_download (runner_exit 0))
                                (@cmd_migrate _) quiet "two-fer" tree_two_fer).2)
               "two-fer-2" = true
  /\ mem_isfile (fs (run_command (mem_platform tool_download (runner_exit 0))
                                 (@cmd_migrate _) quiet "two-fer" tree_two_fer).2)
                "two-fer/.solution.json" = false.
Proof.
  split.
  { intros Hm. simpl.
    set (args := ["exercism"; "download"; "-t"; "python"; "-e"; exercise]).
    destruct (task_of_raise opts "migrating" migrate exercise st
                (fun e st' => fs st' = (spawn args (fs st)).2
                              /\ journal st' = journal st ++ [Spawned args]
                              /\ exists e', wrapped (Raise e) = Raise e'))
      as (e & st' & st'' & Ht & (Hf & Hj & e' & He) & Hf' & Hj').
    { intros st0 Hf Hj.
      destruct (migrate_raises exercise st0) as (e & st' & Hc & Hf' & Hj' & He);
        [by rewrite Hf |].
      exists e, st'. rewrite Hf in Hf', He. rewrite Hj in Hj'.
      split; [done |]. split; [done |]. split; [done |].
      rewrite He. destruct (_ =? 0); by eexists. }
    exists e', st''. rewrite Ht, He, Hf', Hj'. by rewrite Hf, Hj. }
  split; [vm_compute; reflexivity |].
  split; [vm_compute; reflexivity |].
  split; vm_compute; reflexivity.
Qed.

Lemma test_timeout (opts : Flags) (exercise : string) (t : Z) st :
  timeout opts = Some t ->
  test opts exercise st
  = (Raise (TypeError "sequence item 4: expected str instance, int found"), st).
Proof. intros Ht. unfold test. by rewrite Ht. Qed.

(** C10: with a timeout configured, [test] puts the integer itself in the
    argument list, joining the list for the echo raises a type error, and
    the test runner is not called: [test] ends in the state it started in,
    and the wrapped command raises the same error with no effect on files
    or on the journal of external runs. *)
Theorem C10_timeout_raises_type_error (opts : Flags) (exercise : string) (t : Z)
    (st : state FS) :
  timeout opts = Some t ->
  test opts exercise st
  = (Raise (TypeError "sequence item 4: expected str instance, int found"), st)
  /\ exists st',
       call (cmd_test opts) exercise st
       = (Raise (TypeError "sequence item 4: expected str instance, int found"), st')
       /\ fs st' = fs st
       /\ journal st' = journal st.
Proof.
  intros Ht. split; [by apply (test_timeout opts exercise t) |]. simpl.
  destruct (task_cases opts "testing" (test opts) exercise st) as (st0 & Hf & Hj & Hrun).
  rewrite (test_timeout opts exercise t) in Hrun by done.
  destruct Hrun as (st'' & Hrun & Hf' & Hj').
  exists st''. by rewrite Hrun, Hf', Hj'.
Qed.

End Facts.

(** *** Witnesses *)

Lemma C8_migrate_marker_noop_witness :
  @migrate _ (scenario 0 0) "leap" (boot tree_migrated)
  = (Ret VNone, printed ("leap" +:+ " has already been migrated" +:+ nl) (boot tree_migrated))
  /\ exists st',
       call (@cmd_migrate _ (scenario 0 0) quiet) "leap" (boot tree_migrated)
       = (Ret VNone, st')
       /\ fs st' = tree_migrated
       /\ journal st' = [].
Proof.
  apply (@C8_migrate_marker_noop _ (scenario 0 0) quiet "leap" (boot tree_migrated)).
  reflexivity.
Defined.

Lemma C10_timeout_raises_type_error_witness :
  @test _ (scenario 0 0) (mkFlags None (Some 5)) "leap" (boot tree_migrated)
  = (Raise (TypeError "sequence item 4: expected str instance, int found"),
     boot tree_migrated)
  /\ exists st',
       call (@cmd_test _ (scenario 0 0) (mkFlags None (Some 5))) "leap" (boot tree_migrated)
       = (Raise (TypeError "sequence item 4: expected str instance, int found"), st')
       /\ fs st' = tree_migrated
       /\ journal st' = [].
Proof.
  apply (@C10_timeout_raises_type_error _ (scenario 0 0) (mkFlags None (Some 5))
           "leap" 5 (boot tree_migrated)).
  reflexivity.
Defined.

(** ** Further properties of the program *)

Section More.
Context {FS : Type} `{Platform FS}.
Implicit Types (st : state FS) (s text : string).
Implicit Types (commands : list (Command FS)) (c d : Command FS).

Local Open Scope py_scope.

(** *** The registry stays sorted, complete and stable *)

Lemma ltb_le (a b : string) : String.ltb a b = false <-> String.le b a.
Proof.
  unfold String.le, String.ltb, String.leb. rewrite (String.compare_antisym a b).
  destruct (String.compare b a); simpl; naive_solver.
Qed.

Lemma ltb_true_le (a b : string) : String.ltb a b = true -> String.le a b.
Proof.
  unfold String.le, String.ltb, String.leb. by destruct (String.compare a b).
Qed.

Lemma ltb_true_neq (a b : string) : String.ltb a b = true -> a <> b.
Proof.
  unfold String.ltb. intros Hlt ->.
  pose proof (String.compare_antisym b b) as E.
  by destruct (String.compare b b).
Qed.

Lemma insert_by_name_perm c commands : insert_by_name c commands ≡ₚ c :: commands.
Proof.
  induction commands as [|d l IH]; simpl; [done |].
  destruct (String.ltb (name c) (name d)); [done |].
  rewrite IH. apply Permutation_swap.
Qed.

Lemma insertions_perm (l sorted : list (Command FS)) :
  fold_left (fun sorted c => insert_by_name c sorted) l sorted ≡ₚ sorted ++ l.
Proof.
  revert sorted. induction l as [|c l IH]; intros sorted; simpl.
  - by rewrite app_nil_r.
  - rewrite IH, insert_by_name_perm. simpl. apply Permutation_middle.
Qed.

Lemma insert_by_name_sorted c commands :
  Sorted name_le commands -> Sorted name_le (insert_by_name c commands).
Proof.
  induction commands as [|d l IH]; simpl; intros Hs.
  - by repeat constructor.
  - destruct (String.ltb (name c) (name d)) eqn:E.
    + constructor; [done |]. constructor. by apply ltb_true_le.
    + apply Sorted_inv in Hs as [Hs Hd]. constructor; [by apply IH |].
      destruct l as [|d' l']; simpl.
      * constructor. by apply ltb_le.
      * destruct (String.ltb (name c) (name d')); constructor.
        -- by apply ltb_le.
        -- by apply HdRel_inv in Hd.
Qed.

Lemma insertions_sorted (l sorted : list (Command FS)) :
  Sorted name_le sorted ->
  Sorted name_le (fold_left (fun sorted c => insert_by_name c sorted) l sorted).
Proof.
  revert sorted. induction l as [|c l IH]; intros sorted Hs; simpl; [done |].
  by apply IH, insert_by_name_sorted.
Qed.

#[local] Instance name_le_trans : Transitive (@name_le FS).
Proof. intros a b c. unfold name_le. apply transitivity. Qed.

Lemma filter_named_none (n : string) commands :
  (forall x, In x commands -> named n x = false) ->
  List.filter (named n) commands = [].
Proof.
  induction commands as [|d l IH]; intros Hall; [done |].
  cbn [List.filter]. rewrite (Hall d) by (by left).
  apply IH. intros x Hx. apply Hall. by right.
Qed.

Lemma insert_by_name_named (n : string) c commands :
  StronglySorted name_le commands ->
  List.filter (named n) (insert_by_name c commands)
  = List.filter (named n) commands ++ List.filter (named n) [c].
Proof.
  induction commands as [|d l IH]; intros Hs; [done |].
  apply StronglySorted_inv in Hs as [Hs Hd].
  cbn [insert_by_name].
  destruct (String.ltb (name c) (name d)) eqn:E.
  - cbn [List.filter]. destruct (named n c) eqn:Ec; [| by rewrite app_nil_r].
    enough (List.filter (named n) (d :: l) = []) as Hnone.
    { cbn [List.filter] in Hnone. by rewrite Hnone. }
    apply filter_named_none.
    + intros x Hx. unfold named in *. apply String.eqb_eq in Ec.
      apply String.eqb_neq. intros Hxn.
      assert (String.le (name d) (name x)) as Hdx.
      { destruct Hx as [<- | Hx]; [reflexivity |].
        by apply (proj1 (List.Forall_forall _ _) Hd). }
      apply ltb_true_neq in E as Hne. apply ltb_true_le in E.
      rewrite Hxn, <- Ec in Hdx. apply Hne. by apply (anti_symm String.le).
  - cbn [List.filter]. rewrite IH by done. cbn [List.filter].
    by destruct (named n d).
Qed.

Lemma insertions_named (n : string) (l sorted : list (Command FS)) :
  Sorted name_le sorted ->
  List.filter (named n) (fold_left (fun sorted c => insert_by_name c sorted) l sorted)
  = List.filter (named n) sorted ++ List.filter (named n) l.
Proof.
  revert sorted. induction l as [|c l IH]; intros sorted Hs.
  - by rewrite app_nil_r.
  - cbn [fold_left]. rewrite IH by (by apply insert_by_name_sorted).
    rewrite insert_by_name_named
      by (apply Sorted_StronglySorted; [exact name_le_trans | done]).
    rewrite <- app_assoc. f_equal.
    cbn [List.filter]. by destruct (named n c).
Qed.

(** X1: [register] loses and invents nothing: the registry after it holds
    exactly the commands it held before and the new one, each as often as
    it was registered (a second registration under a name already taken is
    kept beside the first). *)
Theorem register_keeps_every_command (function : Command FS) commands :
  register function commands ≡ₚ function :: commands
  /\ length (register function commands) = S (length commands).
Proof.
  assert (register function commands ≡ₚ function :: commands) as Hp.
  { unfold register, sort_by_name. rewrite insertions_perm. simpl.
    by rewrite <- Permutation_cons_append. }
  split; [done |]. by rewrite Hp.
Qed.

(** X2: after every [register] the registry is sorted by name, whatever
    order it was in before: each name is at most every name after it, so
    [__iter__] yields the names in ascending order. *)
Theorem register_sorts_by_name (function : Command FS) commands :
  StronglySorted name_le (register function commands)
  /\ StronglySorted String.le (names (register function commands)).
Proof.
  assert (StronglySorted name_le (register function commands)) as Hs.
  { apply Sorted_StronglySorted; [exact name_le_trans |].
    unfold register, sort_by_name. apply insertions_sorted. constructor. }
  split; [done |].
  unfold names. induction Hs as [|c l Hs IH Hall]; simpl; constructor; [done |].
  apply List.Forall_forall. intros n Hn. apply in_map_iff in Hn as (d & <- & Hd).
  by apply (proj1 (List.Forall_forall _ _) Hall).
Qed.

(** X3: the sort of [register] is stable: the commands registered under
    one name stand in the registry in the order of their registration. *)
Theorem register_is_stable (n : string) (function : Command FS) commands :
  List.filter (named n) (register function commands)
  = List.filter (named n) (commands ++ [function]).
Proof.
  unfold register, sort_by_name. rewrite insertions_named by constructor. done.
Qed.

(** *** Resolving abbreviations *)

Lemma prefix_refl (a : string) : String.prefix a a = true.
Proof.
  induction a as [|x a IH]; simpl; [done |].
  by destruct (ascii_dec x x).
Qed.

Lemma prefix_trans (a b c' : string) :
  String.prefix a b = true -> String.prefix b c' = true -> String.prefix a c' = true.
Proof.
  revert a b. induction c' as [|z c' IH]; intros [|x a] [|y b]; simpl; try done.
  destruct (ascii_dec x y) as [-> |]; [| done].
  destruct (ascii_dec y z) as [-> |]; [| done].
  apply IH.
Qed.

Lemma filter_narrows {A} (f g : A -> bool) (l : list A) :
  (forall x, f x = true -> g x = true) ->
  List.filter f (List.filter g l) = List.filter f l.
Proof.
  intros Hfg. induction l as [|x l IH]; simpl; [done |].
  destruct (g x) eqn:Eg; simpl.
  - by rewrite IH.
  - destruct (f x) eqn:Ef; [| done]. apply Hfg in Ef. congruence.
Qed.

Lemma matching_longer commands s s' :
  String.prefix s s' = true ->
  matching commands s' = List.filter (fun c => Str.startswith (name c) s') (matching commands s).
Proof.
  intros Hp. unfold matching. symmetry. apply filter_narrows.
  intros c. unfold Str.startswith. by apply prefix_trans.
Qed.

Lemma matching_empty commands : matching commands EmptyString = commands.
Proof.
  unfold matching. induction commands as [|c l IH]; simpl; [done |].
  replace (Str.startswith (name c) EmptyString) with true
    by (unfold Str.startswith; by destruct (name c)).
  by rewrite IH.
Qed.

Lemma two_members {A} (x y : A) (l : list A) :
  x ∈ l -> y ∈ l -> x <> y -> (2 <= length l)%nat.
Proof.
  intros Hx Hy Hne.
  destruct l as [|a [|b l]]; simpl; [by inversion Hx | | lia].
  apply list_elem_of_singleton in Hx, Hy. congruence.
Qed.

Lemma matching_complete commands s c :
  c ∈ commands -> Str.startswith (name c) s = true -> c ∈ matching commands s.
Proof.
  unfold matching. rewrite !list_elem_of_In, filter_In. tauto.
Qed.

(** X4: typing more letters of a command's name never changes the command
    that is selected: when a prefix resolves to a command, every longer
    prefix of that command's name resolves to it too, and nothing is
    printed. *)
Theorem longer_prefix_resolves_the_same commands s s' c st :
  matching commands s = [c] ->
  String.prefix s s' = true ->
  Str.startswith (name c) s' = true ->
  find_best commands s' st = (Ret c, st).
Proof.
  intros Hm Hp Hc. apply find_best_unique.
  rewrite (matching_longer commands s s') by done.
  rewrite Hm. simpl. by rewrite Hc.
Qed.

(** X5: the empty prefix matches every registered command: with two
    commands or more it is ambiguous, the whole registry is listed and the
    process exits with status 1. *)
Theorem empty_prefix_lists_every_command commands st :
  (2 <= length commands)%nat ->
  find_best commands EmptyString st
  = (Raise (SystemExit (VInt 1)),
     printed ("Ambigious command '" +:+ EmptyString +:+ "'; choose from the following:"
              +:+ nl +:+ listing commands) st).
Proof.
  intros Hlen. rewrite find_best_ambiguous by (by rewrite matching_empty).
  by rewrite matching_empty.
Qed.

(** X6: a command's full name is given no preference: when its name is
    also the beginning of another command's name, the full name is
    ambiguous, both commands are among those listed, and the process exits
    with status 1. *)
Theorem full_name_is_not_preferred commands c d st :
  c ∈ commands ->
  d ∈ commands ->
  name c <> name d ->
  Str.startswith (name d) (name c) = true ->
  find_best commands (name c) st
  = (Raise (SystemExit (VInt 1)),
     printed ("Ambigious command '" +:+ name c +:+ "'; choose from the following:"
              +:+ nl +:+ listing (matching commands (name c))) st)
  /\ c ∈ matching commands (name c)
  /\ d ∈ matching commands (name c).
Proof.
  intros Hc Hd Hne Hpre.
  assert (c ∈ matching commands (name c)) as Hc'.
  { apply matching_complete; [done |]. apply prefix_refl. }
  assert (d ∈ matching commands (name c)) as Hd' by (by apply matching_complete).
  split; [| done].
  apply find_best_ambiguous. apply (two_members c d); [done | done |].
  intros ->. by apply Hne.
Qed.

(** *** The registry of the program *)

Lemma cmd_mgr_eq (opts : Flags) :
  cmd_mgr opts
  = [cmd_checkin opts; cmd_migrate opts; cmd_restore opts; cmd_submit opts; cmd_test opts].
Proof. reflexivity. Qed.

Lemma prefix_head (x y : ascii) (s t : string) :
  String.prefix (String x s) (String y t) = true -> x = y.
Proof. simpl. by destruct (ascii_dec x y). Qed.

Lemma prefix_other_head (x y : ascii) (s t : string) :
  x <> y -> String.prefix (String x s) (String y t) = false.
Proof. intros Hne. simpl. by destruct (ascii_dec x y). Qed.

(** X7: in the program's own registry every command can be abbreviated
    down to its first letter: any non-empty beginning of the name of
    checkin, migrate, restore, submit or test selects that command. *)
Theorem every_abbreviation_resolves (opts : Flags) c s st :
  c ∈ cmd_mgr opts ->
  s <> EmptyString ->
  Str.startswith (name c) s = true ->
  find_best (cmd_mgr opts) s st = (Ret c, st).
Proof.
  intros Hc Hs Hpre. apply find_best_unique.
  rewrite cmd_mgr_eq in Hc |- *.
  destruct s as [|x s]; [done |].
  unfold matching, Str.startswith in *.
  repeat (apply elem_of_cons in Hc as [-> | Hc]); [.. | by apply elem_of_nil in Hc];
    cbn [name cmd_checkin cmd_migrate cmd_restore cmd_submit cmd_test List.filter] in *;
    apply prefix_head in Hpre as Hx; subst x;
    rewrite Hpre; by rewrite !prefix_other_head by done.
Qed.

(** *** The command option *)

Lemma resolves_Some commands s c :
  resolves commands s = Some c -> matching commands s = [c].
Proof.
  unfold resolves. destruct (matching commands s) as [|c' [|d l]]; try done.
  by intros [= ->].
Qed.

Lemma resolves_None commands s st :
  resolves commands s = None ->
  exists text, find_best commands s st = (Raise (SystemExit (VInt 1)), printed text st).
Proof.
  unfold resolves. destruct (matching commands s) as [|c' [|d l]] eqn:E; try done; intros _.
  - eexists. by apply find_best_unknown.
  - eexists. apply find_best_ambiguous. rewrite E. simpl. lia.
Qed.

Lemma map_each_resolved commands (values : list string) (cs : list (Command FS)) st :
  mapM (resolves commands) values = Some cs ->
  map_each (CommandAction_parse commands) values st = (Ret cs, st).
Proof.
  revert cs. induction values as [|v values IH]; intros cs Hcs.
  - by injection Hcs as <-.
  - cbn in Hcs. destruct (resolves commands v) as [c' |] eqn:Ev; [| done].
    destruct (mapM (resolves commands) values) as [cs' |]; [| done].
    injection Hcs as <-. simpl. unfold bind at 1. unfold CommandAction_parse at 1.
    rewrite (find_best_unique commands v st c') by (by apply resolves_Some).
    unfold bind. by rewrite (IH cs').
Qed.

Lemma map_each_unresolved commands (values : list string) st :
  mapM (resolves commands) values = None ->
  exists text,
    map_each (CommandAction_parse commands) values st
    = (Raise (SystemExit (VInt 1)), printed text st).
Proof.
  induction values as [|v values IH]; intros Hcs; [done |].
  simpl. unfold bind at 1. unfold CommandAction_parse at 1.
  cbn in Hcs. destruct (resolves commands v) as [c' |] eqn:Ev.
  - rewrite (find_best_unique commands v st c') by (by apply resolves_Some).
    destruct (mapM (resolves commands) values) as [cs' |]; [done |].
    unfold bind. destruct IH as (text & ->); [done |]. by exists text.
  - destruct (resolves_None commands v st Ev) as (text & ->). by exists text.
Qed.

Lemma mapM_unresolved commands (values : list string) s :
  s ∈ values -> resolves commands s = None -> mapM (resolves commands) values = None.
Proof.
  intros Hs Hn. apply eq_None_not_Some. rewrite mapM_is_Some.
  intros Hall. rewrite Forall_forall in Hall. specialize (Hall s Hs).
  simpl in Hall. rewrite Hn in Hall. by destruct Hall.
Qed.

(** X8: the command option resolves every piece of its value by prefix
    and appends the commands found, in the order of the pieces, to the
    commands accumulated so far; resolving prints nothing. *)
Theorem command_option_accumulates commands (current : option (list (Command FS)))
    (value : string) (cs : list (Command FS)) st :
  mapM (resolves commands) (RGX_LIST_split value) = Some cs ->
  ExtendAction_extend (CommandAction_parse commands) current value st
  = (Ret (Some (default [] current ++ cs)), st).
Proof.
  intros Hcs. unfold ExtendAction_extend, bind.
  by rewrite (map_each_resolved commands _ cs).
Qed.

(** X9: the command option is all or nothing: when one piece of its value
    resolves to no command or to several, the process exits with status 1
    after a message on [sys.stdout], and no command is run whatever the
    other pieces are. *)
Theorem command_option_rejects_unresolved commands (current : option (list (Command FS)))
    (value s : string) st :
  s ∈ RGX_LIST_split value ->
  resolves commands s = None ->
  exists text,
    ExtendAction_extend (CommandAction_parse commands) current value st
    = (Raise (SystemExit (VInt 1)), printed text st).
Proof.
  intros Hs Hn. unfold ExtendAction_extend, bind.
  destruct (map_each_unresolved commands (RGX_LIST_split value) st) as (text & ->);
    [by apply (mapM_unresolved commands _ s) |].
  by exists text.
Qed.

(** X10: an empty piece in the value of the command option, as two adjacent
    delimiters or a delimiter at either end leave one, is the empty prefix:
    with two registered commands or more it is ambiguous and the process
    exits with status 1. *)
Theorem command_option_rejects_empty_piece commands (current : option (list (Command FS)))
    (value : string) st :
  (2 <= length commands)%nat ->
  EmptyString ∈ RGX_LIST_split value ->
  exists text,
    ExtendAction_extend (CommandAction_parse commands) current value st
    = (Raise (SystemExit (VInt 1)), printed text st).
Proof.
  intros Hlen Hs. unfold ExtendAction_extend, bind.
  destruct (map_each_unresolved commands (RGX_LIST_split value) st) as (text & ->).
  - apply (mapM_unresolved commands _ EmptyString); [done |].
    unfold resolves. rewrite matching_empty.
    by destruct commands as [|c' [|d l]]; simpl in Hlen; [lia | lia |].
  - by exists text.
Qed.

(** *** Pieces and delimiters *)

Lemma split_clean s : has_delimiter s = false -> RGX_LIST_split s = [s].
Proof.
  unfold RGX_LIST_split. induction s as [|x s IH]; simpl; [done |].
  destruct (RGX_LIST x); [done |]. simpl. intros Hs. by rewrite IH.
Qed.

Lemma split_clean_then (piece rest : string) (sep : ascii) :
  has_delimiter piece = false ->
  RGX_LIST sep = true ->
  RGX_LIST_split (piece +:+ String sep rest) = piece :: RGX_LIST_split rest.
Proof.
  unfold RGX_LIST_split. intros Hp Hsep.
  induction piece as [|x piece IH].
  - change (EmptyString +:+ String sep rest) with (String sep rest). simpl. by rewrite Hsep.
  - rewrite append_cons. simpl in Hp |- *.
    destruct (RGX_LIST x); [done |]. simpl in Hp. by rewrite IH.
Qed.

(** X11: a value without space, comma or semicolon, the empty value
    included, is one item: a list-valued option appends it unchanged to
    what it has accumulated. *)
Theorem value_without_delimiter_is_one_item (current : option (list string))
    (value : string) st :
  has_delimiter value = false ->
  RGX_LIST_split value = [value]
  /\ ExtendAction_extend ExtendAction_parse current value st
     = (Ret (Some (default [] current ++ [value])), st).
Proof.
  intros Hv. split; [by apply split_clean |].
  by rewrite extend_eq, split_clean.
Qed.

(** X12: splitting undoes joining: items that hold no delimiter, joined by
    one delimiter character, are split into the same items again (one item
    at least: the join of no item is the empty string, which splits into
    one empty item). *)
Theorem split_undoes_join (sep : ascii) (items : list string) :
  RGX_LIST sep = true ->
  items <> [] ->
  Forall (fun item => has_delimiter item = false) items ->
  RGX_LIST_split (Str.join (String sep EmptyString) items) = items.
Proof.
  intros Hsep Hne Hall. unfold Str.join.
  induction Hall as [|item items Hitem Hall IH]; [done |].
  destruct items as [|item' items]; [by apply split_clean |].
  change (String.concat (String sep EmptyString) (item :: item' :: items))
    with (item +:+ String sep EmptyString
          +:+ String.concat (String sep EmptyString) (item' :: items)).
  rewrite append_cons.
  change (EmptyString +:+ ?x) with x.
  rewrite split_clean_then by done. by rewrite IH.
Qed.

(** *** Capturing and the task wrapper *)

Lemma stdout_printed text st :
  sys_stdout st = Terminal -> sys_stdout (printed text st) = Terminal.
Proof. intros Ht. unfold printed, write. by rewrite Ht. Qed.

Lemma stderr_printed text st : sys_stderr (printed text st) = sys_stderr st.
Proof. unfold printed, write. by destruct (sys_stdout st). Qed.

(** What is printed inside [capture] is gone once the streams are back. *)
Lemma printed_in_capture text st :
  set_streams (sys_stdout st) (sys_stderr st)
              (printed text (set_streams (StringIO EmptyString) (StringIO EmptyString) st))
  = st.
Proof. by destruct st. Qed.

Lemma task_outcome (opts : Flags) (action : string) (function : string -> Py FS value)
    (target : string) st :
  task opts action function target st
  = match attempt opts function target (printed (announcement action target) st) with
    | (r, st2) => (wrapped r, printed (epilogue r) st2)
    end.
Proof.
  rewrite task_unfold. unfold announcement.
  destruct (attempt opts function target _) as [[v | e] st2]; simpl; [done |].
  destruct e; simpl; rewrite ?printed_empty; try done.
  destruct (py_decode output); by rewrite ?printed_empty.
Qed.

(** X13: [capture] puts both streams back however its body ends, drops
    what the body printed, and, nested in itself, behaves as one
    [capture]. *)
Theorem capture_discards_and_restores {A : Type} (body : Py FS A)
    (args : list string) (end_ : string) st :
  sys_stdout (capture body st).2 = sys_stdout st
  /\ sys_stderr (capture body st).2 = sys_stderr st
  /\ capture (print args end_) st = (Ret VNone, st)
  /\ capture (capture body) st = capture body st.
Proof.
  split; [unfold capture; by destruct (body _) |].
  split; [unfold capture; by destruct (body _) |].
  split; [by destruct st |].
  unfold capture, set_streams. simpl. by destruct (body _).
Qed.

(** X14: without [-v] the task wrapper leaves [sys.stdout] and
    [sys.stderr] as it found them, whatever the wrapped function does:
    return, raise, or rebind the streams itself. *)
Theorem quiet_task_restores_the_streams (opts : Flags) (action : string)
    (function : string -> Py FS value) (target : string) st :
  truthy (verbose opts) = false ->
  sys_stdout st = Terminal ->
  sys_stdout (task opts action function target st).2 = Terminal
  /\ sys_stderr (task opts action function target st).2 = sys_stderr st.
Proof.
  intros Hv Ht. rewrite task_outcome, attempt_quiet by done.
  destruct (function target _) as [r st']. simpl.
  rewrite stderr_printed. simpl. rewrite stderr_printed.
  split; [| done]. apply stdout_printed. simpl. by apply stdout_printed.
Qed.

(** X15: without [-v] nothing of what the wrapped function prints is
    shown: for a function that only prints, the wrapper's whole output is
    the announcement followed by [Done], [Failed] or the stripped output of
    a failed subprocess. *)
Theorem quiet_task_hides_what_the_function_prints (opts : Flags) (action : string)
    (function : string -> Py FS value) (target text : string) (r : outcome value) st :
  truthy (verbose opts) = false ->
  (forall st0, fs st0 = fs st -> function target st0 = (r, printed text st0)) ->
  task opts action function target st
  = (wrapped r, printed (announcement action target +:+ epilogue r) st).
Proof.
  intros Hv Hfun. rewrite task_outcome, attempt_quiet by done.
  rewrite Hfun by (simpl; apply fs_printed).
  by rewrite printed_in_capture, printed_printed.
Qed.

(** X16: with [-v] what the wrapped function prints is shown, on a line
    of its own after the announcement and before the closing word. *)
Theorem verbose_task_shows_what_the_function_prints (opts : Flags) (action : string)
    (function : string -> Py FS value) (target text : string) (r : outcome value) st :
  truthy (verbose opts) = true ->
  (forall st0, fs st0 = fs st -> function target st0 = (r, printed text st0)) ->
  task opts action function target st
  = (wrapped r,
     printed (announcement action target +:+ nl +:+ text +:+ epilogue r) st).
Proof.
  intros Hv Hfun. rewrite task_outcome, attempt_verbose by done.
  rewrite Hfun by (by rewrite !fs_printed).
  rewrite !printed_printed. by rewrite ?append_assoc.
Qed.

(** *** The commands, run without [-v] *)

Lemma titles :
  Str.title "testing" = "Testing"
  /\ Str.title "checking in" = "Checking In"
  /\ Str.title "submitting" = "Submitting".
Proof. repeat split; vm_compute; reflexivity. Qed.

Lemma printed_terminal text (f : FS) (err : stream) (con : string) (jou : list event) :
  printed text (mkState f Terminal err con jou) = mkState f Terminal err (con +:+ text) jou.
Proof. reflexivity. Qed.

Lemma printed_buffer text (f : FS) (buffer : string) (err : stream) (con : string)
    (jou : list event) :
  printed text (mkState f (StringIO buffer) err con jou)
  = mkState f (StringIO (buffer +:+ text)) err con jou.
Proof. reflexivity. Qed.

Lemma set_streams_state (out err : stream) (f : FS) (out0 err0 : stream) (con : string)
    (jou : list event) :
  set_streams out err (mkState f out0 err0 con jou) = mkState f out err con jou.
Proof. reflexivity. Qed.

Lemma set_fs_state (f' f : FS) (out err : stream) (con : string) (jou : list event) :
  set_fs f' (mkState f out err con jou) = mkState f' out err con jou.
Proof. reflexivity. Qed.

Lemma record_state (e : event) (f : FS) (out err : stream) (con : string)
    (jou : list event) :
  record e (mkState f out err con jou) = mkState f out err con (jou ++ [e]).
Proof. reflexivity. Qed.

Lemma to_console_state text (f : FS) (out err : stream) (con : string) (jou : list event) :
  to_console text (mkState f out err con jou) = mkState f out err (con +:+ text) jou.
Proof. reflexivity. Qed.

(** Evaluate the writes and updates on a state given field by field, from
    the inside out. *)
Ltac run_state :=
  repeat (progress rewrite ?printed_terminal, ?printed_buffer, ?set_streams_state,
                           ?set_fs_state, ?record_state, ?to_console_state).

Lemma test_runs (opts : Flags) (exercise : string) st :
  timeout opts = None ->
  test opts exercise st
  = match pytest_main [VStr "-x"; VStr exercise] (fs st) with
    | (code, report, fs') =>
        (Ret (VInt code),
         printed report
           (record (PytestRun [VStr "-x"; VStr exercise])
                   (set_fs fs' (printed ("pytest -x " +:+ exercise +:+ nl) st))))
    end.
Proof.
  intros Hto. unfold test. rewrite Hto.
  change (py_join " " (VStr "pytest" :: [VStr "-x"; VStr exercise] ++ []))
    with (@Ret string ("pytest -x " +:+ exercise)).
  unfold bind at 1. unfold lift. unfold bind at 1. rewrite print_eq.
  unfold bind, pytest_run. rewrite fs_printed. simpl.
  destruct (pytest_main _ (fs st)) as [[code report] fs'].
  by rewrite write_eq.
Qed.

(** X17: without [-v] and without a timeout, the test command runs the
    test runner once on the exercise, with [-x], and shows nothing of it:
    whatever the runner reports and whatever code it returns, the terminal
    gets the announcement and [Done], and the command returns [None]. *)
Theorem quiet_test_prints_no_report (opts : Flags) (exercise : string) st :
  truthy (verbose opts) = false ->
  timeout opts = None ->
  sys_stdout st = Terminal ->
  call (cmd_test opts) exercise st
  = (Ret VNone,
     mkState (pytest_main [VStr "-x"; VStr exercise] (fs st)).2 Terminal (sys_stderr st)
             (console st +:+ "Testing " +:+ exercise +:+ "...Done" +:+ nl)
             (journal st ++ [PytestRun [VStr "-x"; VStr exercise]])).
Proof.
  intros Hv Hto Ht. cbn [call cmd_test]. rewrite task_outcome, attempt_quiet by done.
  unfold announcement. rewrite (proj1 titles).
  rewrite test_runs by done. cbn [fs set_streams]. rewrite fs_printed.
  destruct (pytest_main _ (fs st)) as [[code report] fs'].
  destruct st as [f out err con jou]. cbn [sys_stdout] in Ht. subst out.
  cbn [wrapped epilogue snd]. run_state.
  by rewrite !append_assoc.
Qed.

(** X18: without [-v] the commands that only shell out show the output of
    the external program, which writes to the terminal itself, but neither
    the echo of its command line nor a closing [Done] or [Failed]: checkin
    and submit end with an exception after exactly one external run. *)
Theorem quiet_shell_commands_show_only_the_tool (opts : Flags) (exercise : string) st :
  truthy (verbose opts) = false ->
  sys_stdout st = Terminal ->
  (exists e,
     call (cmd_checkin opts) exercise st
     = (Raise e,
        mkState (spawn ["git"; "add"; exercise] (fs st)).2 Terminal (sys_stderr st)
                (console st +:+ "Checking In " +:+ exercise +:+ "..."
                 +:+ (spawn ["git"; "add"; exercise] (fs st)).1.2)
                (journal st ++ [Spawned ["git"; "add"; exercise]])))
  /\ (let args := ["exercism"; "submit";
                   path_join exercise (Str.replace "-" "_" exercise +:+ ".py")] in
      exists e,
        call (cmd_submit opts) exercise st
        = (Raise e,
           mkState (spawn args (fs st)).2 Terminal (sys_stderr st)
                   (console st +:+ "Submitting " +:+ exercise +:+ "..."
                    +:+ (spawn args (fs st)).1.2)
                   (journal st ++ [Spawned args]))).
Proof.
  intros Hv Ht. split; [| intros args]; cbn [call cmd_checkin cmd_submit];
    rewrite task_outcome, attempt_quiet by done; unfold announcement.
  - rewrite (proj1 (proj2 titles)).
    unfold checkin, git. unfold bind at 1. rewrite terminal_unfold.
    cbn [fs set_streams]. rewrite fs_printed.
    destruct (spawn _ (fs st)) as [[status output] fs']. cbn [fst snd].
    destruct st as [f out err con jou]. cbn [sys_stdout] in Ht. subst out.
    destruct (status =? 0); cbn [wrapped epilogue py_decode type_name]; eexists;
      run_state; by rewrite ?append_empty_r, ?append_assoc.
  - rewrite (proj2 (proj2 titles)).
    unfold submit, exercism. fold args. unfold bind at 1. rewrite terminal_unfold.
    cbn [fs set_streams]. rewrite fs_printed.
    destruct (spawn _ (fs st)) as [[status output] fs']. cbn [fst snd].
    destruct st as [f out err con jou]. cbn [sys_stdout] in Ht. subst out.
    destruct (status =? 0); cbn [wrapped epilogue py_decode type_name]; eexists;
      run_state; by rewrite ?append_empty_r, ?append_assoc.
Qed.

(** *** Restoring *)

Lemma restore_unfold (exercise : string) st :
  restore exercise st
  = match rmtree exercise (fs st) with
    | Some fs1 =>
        match terminal ["git"; "checkout"; "--"; exercise]
                (record (Removed exercise)
                   (set_fs fs1 (printed ("Removing " +:+ exercise +:+ "/" +:+ nl) st))) with
        | (Ret _, st') => (Ret VNone, st')
        | (Raise e, st') => (Raise e, st')
        end
    | None =>
        (Raise (OSError (rmtree_failure exercise (fs st)).1),
         set_fs (rmtree_failure exercise (fs st)).2
                (printed ("Removing " +:+ exercise +:+ "/" +:+ nl) st))
    end.
Proof.
  unfold restore. unfold bind at 1. rewrite print_eq, !append_assoc.
  unfold bind at 1. unfold shutil_rmtree. rewrite fs_printed.
  destruct (rmtree exercise (fs st)) as [fs1 |].
  - unfold bind, git. by destruct (terminal _ _) as [[v | e] st'].
  - by destruct (rmtree_failure exercise (fs st)) as [culprit fs'].
Qed.


(** X20: restore removes the exercise directory before it asks git for
    it: once the removal has succeeded, git is run exactly once, on the
    file system without the directory, and since the call of [terminal]
    never returns, the command ends with an exception whatever git did. *)
Theorem restore_removes_before_checkout (opts : Flags) (exercise : string) (fs1 : FS) st :
  rmtree exercise (fs st) = Some fs1 ->
  exists e st',
    call (cmd_restore opts) exercise st = (Raise e, st')
    /\ fs st' = (spawn ["git"; "checkout"; "--"; exercise] fs1).2
    /\ journal st'
       = journal st ++ [Removed exercise; Spawned ["git"; "checkout"; "--"; exercise]].
Proof.
  intros Hrm. simpl.
  set (args := ["git"; "checkout"; "--"; exercise]).
  destruct (task_of_raise opts "restoring" restore exercise st
              (fun e st' => fs st' = (spawn args fs1).2
                            /\ journal st' = journal st ++ [Removed exercise; Spawned args]
                            /\ exists e', wrapped (Raise e) = Raise e'))
    as (e & st' & st'' & Ht & (Hf & Hj & e' & He) & Hf' & Hj').
  { intros st0 Hf Hj. rewrite restore_unfold, Hf, Hrm. fold args.
    destruct (terminal_raises args
                (record (Removed exercise)
                   (set_fs fs1 (printed ("Removing " +:+ exercise +:+ "/" +:+ nl) st0))))
      as (e & st' & -> & Hf' & Hj' & He).
    simpl in Hf', Hj', He. rewrite journal_printed, Hj in Hj'.
    exists e, st'. split; [done |]. split; [done |].
    split; [by rewrite Hj', <- app_assoc |].
    rewrite He. destruct (_ =? 0); by eexists. }
  exists e', st''. by rewrite Ht, He, Hf', Hj'.
Qed.

(** *** The dispatch loop at its edges *)

Lemma not_ignored_nil (ignored targets : list string) :
  (forall ex, ex ∈ targets -> ex ∈ ignored) -> not_ignored ignored targets = [].
Proof.
  unfold not_ignored. induction targets as [|ex exs IH]; intros Hall; [done |].
  simpl. rewrite bool_decide_eq_true_2 by (apply Hall; apply list_elem_of_here).
  simpl. apply IH. intros ex' Hex'. apply Hall. by apply list_elem_of_further.
Qed.

Lemma main_first_call_raises (c : Command FS) (ignored : list string)
    (rest : list (Command FS)) (pattern : string) (patterns : list string)
    (ex : string) (exs : list string) (e : exn) st st1 :
  glob (fs st) pattern = ex :: exs ->
  ex ∉ ignored ->
  call c ex st = (Raise e, st1) ->
  main (mkOptions ignored (c :: rest) (pattern :: patterns)) st = (Raise e, st1).
Proof.
  intros Hglob Hex Hcall. rewrite main_spec_dispatch. simpl.
  rewrite Hglob. unfold not_ignored. simpl.
  rewrite bool_decide_eq_false_2 by done. simpl.
  by rewrite Hcall.
Qed.

(** X21: the loop has nothing to do, and says nothing, when no target is
    left: no pattern given, patterns that match no path (a misspelt
    exercise), or every matched path on the ignore list.  It returns with
    the world as it was, and the process ends with status 0. *)
Theorem main_without_targets_does_nothing (opts : Options FS) st :
  (forall pattern ex,
      pattern ∈ exercise opts -> ex ∈ glob (fs st) pattern -> ex ∈ ignore opts) ->
  main opts st = (Ret tt, st).
Proof.
  rewrite main_spec_dispatch.
  induction (exercise opts) as [|pattern patterns IH]; intros Hall; [done |].
  simpl. rewrite not_ignored_nil.
  - simpl. apply IH. intros p ex Hp. apply Hall. by apply list_elem_of_further.
  - intros ex. apply Hall. apply list_elem_of_here.
Qed.

(** X22: the loop catches nothing: once the calls before it have
    returned [None] or [0], a call that raises ends the loop there, with
    the exception and the world as that call left them; no call planned
    after it is made and no later pattern is expanded. *)
Theorem main_ends_with_the_first_exception (ignored : list string)
    (commands : list (Command FS)) (pattern : string) (patterns : list string)
    (before after : list (Command FS * string)) (c : Command FS) (ex : string)
    (e : exn) st st1 st2 :
  plan (not_ignored ignored (glob (fs st) pattern)) commands = before ++ (c, ex) :: after ->
  run_calls before st = (Ret tt, st1) ->
  call c ex st1 = (Raise e, st2) ->
  main (mkOptions ignored commands (pattern :: patterns)) st = (Raise e, st2).
Proof.
  intros Hplan Hbefore Hcall. rewrite main_spec_dispatch.
  cbn [ignore command exercise spec_dispatch].
  rewrite Hplan, run_calls_app, Hbefore. cbn [run_calls].
  by rewrite Hcall.
Qed.

(** X23: checkin never gets past its first target: however many paths the
    patterns match and whatever git answers, the program runs [git add]
    once, on the first path matched when that path is not ignored, and ends
    with an exception. *)
Theorem checkin_stops_after_the_first_target (opts : Flags) (ignored : list string)
    (rest : list (Command FS)) (pattern : string) (patterns : list string)
    (ex : string) (exs : list string) st :
  glob (fs st) pattern = ex :: exs ->
  ex ∉ ignored ->
  exists e st',
    main (mkOptions ignored (cmd_checkin opts :: rest) (pattern :: patterns)) st
    = (Raise e, st')
    /\ journal st' = journal st ++ [Spawned ["git"; "add"; ex]].
Proof.
  intros Hglob Hex.
  destruct (task_of_raise opts "checking in" checkin ex st
              (fun e st' => journal st' = journal st ++ [Spawned ["git"; "add"; ex]]
                            /\ exists e', wrapped (Raise e) = Raise e'))
    as (e & st' & st'' & Ht & (Hj & e' & He) & Hf' & Hj').
  { intros st0 Hf Hj.
    destruct (checkin_raises ex st0) as (e & st' & Hc & Hj' & He).
    exists e, st'. split; [done |]. split; [by rewrite Hj', Hj |].
    rewrite He. destruct (_ =? 0); by eexists. }
  exists e', st''. split; [| by rewrite Hj', Hj].
  apply (main_first_call_raises _ _ _ _ _ ex exs); [done | done |].
  simpl. by rewrite Ht, He.
Qed.

(** *** The commands, run with [-v] *)

(** X24: with [-v] and without a timeout, the test command shows the echo
    of the runner's command line and the runner's report between the
    announcement and [Done]; it runs the runner once and still returns
    [None], whatever code the runner returned. *)
Theorem verbose_test_shows_the_report (opts : Flags) (exercise : string) st :
  truthy (verbose opts) = true ->
  timeout opts = None ->
  sys_stdout st = Terminal ->
  call (cmd_test opts) exercise st
  = (Ret VNone,
     mkState (pytest_main [VStr "-x"; VStr exercise] (fs st)).2 Terminal (sys_stderr st)
             (console st +:+ "Testing " +:+ exercise +:+ "..." +:+ nl
              +:+ "pytest -x " +:+ exercise +:+ nl
              +:+ (pytest_main [VStr "-x"; VStr exercise] (fs st)).1.2
              +:+ "Done" +:+ nl)
             (journal st ++ [PytestRun [VStr "-x"; VStr exercise]])).
Proof.
  intros Hv Hto Ht. cbn [call cmd_test]. rewrite task_outcome, attempt_verbose by done.
  unfold announcement. rewrite (proj1 titles).
  rewrite test_runs by done. rewrite !fs_printed.
  destruct (pytest_main _ (fs st)) as [[code report] fs']. cbn [fst snd].
  destruct st as [f out err con jou]. cbn [sys_stdout] in Ht. subst out.
  cbn [wrapped epilogue]. run_state.
  by rewrite !append_assoc.
Qed.

(** X25: with [-v] checkin echoes the command line it is about to run,
    then the external program writes its own output; the command still
    ends with an exception, and no closing word is printed. *)
Theorem verbose_checkin_echoes_the_command (opts : Flags) (exercise : string) st :
  truthy (verbose opts) = true ->
  sys_stdout st = Terminal ->
  exists e,
    call (cmd_checkin opts) exercise st
    = (Raise e,
       mkState (spawn ["git"; "add"; exercise] (fs st)).2 Terminal (sys_stderr st)
               (console st +:+ "Checking In " +:+ exercise +:+ "..." +:+ nl
                +:+ "git add " +:+ exercise +:+ nl
                +:+ (spawn ["git"; "add"; exercise] (fs st)).1.2)
               (journal st ++ [Spawned ["git"; "add"; exercise]])).
Proof.
  intros Hv Ht. cbn [call cmd_checkin]. rewrite task_outcome, attempt_verbose by done.
  unfold announcement. rewrite (proj1 (proj2 titles)).
  unfold checkin, git. unfold bind at 1. rewrite terminal_unfold.
  rewrite !fs_printed.
  destruct (spawn _ (fs st)) as [[status output] fs']. cbn [fst snd].
  destruct st as [f out err con jou]. cbn [sys_stdout] in Ht. subst out.
  change (Str.join " " ["git"; "add"; exercise]) with ("git add " +:+ exercise).
  destruct (status =? 0); cbn [wrapped epilogue py_decode type_name]; eexists;
    run_state; by rewrite ?append_empty_r, ?append_assoc.
Qed.

(** *** Testing many exercises *)

Lemma test_command_returns (opts : Flags) (exercise : string) st :
  timeout opts = None ->
  exists st', call (cmd_test opts) exercise st = (Ret VNone, st').
Proof.
  intros Hto. cbn [call cmd_test].
  destruct (task_cases opts "testing" (test opts) exercise st) as (st0 & _ & _ & Hrun).
  rewrite test_runs in Hrun by done.
  destruct (pytest_main _ (fs st0)) as [[code report] fs'].
  destruct Hrun as (st'' & -> & _). by exists st''.
Qed.

Lemma test_calls_return (opts : Flags) (targets : list string) st :
  timeout opts = None ->
  exists st', run_calls (plan targets [cmd_test opts]) st = (Ret tt, st').
Proof.
  intros Hto. revert st. induction targets as [|ex exs IH]; intros st; [by eexists |].
  cbn [plan flat_map map app run_calls] in *.
  destruct (test_command_returns opts ex st Hto) as (st1 & ->).
  cbn [in_None_0]. apply IH.
Qed.

(** X26: without a timeout the test command never fails the process:
    whatever the patterns match, whatever is ignored and whatever the test
    runs return, the loop runs to its end and returns normally, so the exit
    status is 0 even when tests failed. *)
Theorem test_never_fails_the_process (opts : Flags) (ignored patterns : list string) st :
  timeout opts = None ->
  exists st', main (mkOptions ignored [cmd_test opts] patterns) st = (Ret tt, st').
Proof.
  intros Hto. rewrite main_spec_dispatch. cbn [ignore command exercise].
  revert st. induction patterns as [|pattern patterns IH]; intros st; [by eexists |].
  cbn [spec_dispatch].
  destruct (test_calls_return opts (not_ignored ignored (glob (fs st) pattern)) st Hto)
    as (st1 & ->).
  apply IH.
Qed.

End More.

(** *** Instances of the further properties *)

Lemma longer_prefix_resolves_the_same_witness :
  find_best (@cmd_mgr _ (scenario 0 0) quiet) "mig" (boot tree_migrated)
  = (Ret (@cmd_migrate _ (scenario 0 0) quiet), boot tree_migrated).
Proof.
  apply (longer_prefix_resolves_the_same (@cmd_mgr _ (scenario 0 0) quiet) "m" "mig");
    reflexivity.
Defined.

Lemma empty_prefix_lists_every_command_witness :
  find_best (@cmd_mgr _ (scenario 0 0) quiet) EmptyString (boot tree_migrated)
  = (Raise (SystemExit (VInt 1)),
     printed ("Ambigious command '" +:+ EmptyString +:+ "'; choose from the following:"
              +:+ nl +:+ listing (@cmd_mgr _ (scenario 0 0) quiet)) (boot tree_migrated)).
Proof.
  apply (empty_prefix_lists_every_command (@cmd_mgr _ (scenario 0 0) quiet)).
  simpl. lia.
Defined.

Lemma full_name_is_not_preferred_witness :
  let commands : list (Command (gmap string node)) :=
    [announce "test" VNone; announce "testing" VNone] in
  find_best commands "test" (boot tree_migrated)
  = (Raise (SystemExit (VInt 1)),
     printed ("Ambigious command '" +:+ "test" +:+ "'; choose from the following:"
              +:+ nl +:+ listing (matching commands "test")) (boot tree_migrated))
  /\ announce "test" VNone ∈ matching commands "test"
  /\ announce "testing" VNone ∈ matching commands "test".
Proof.
  intros commands.
  apply (full_name_is_not_preferred commands (announce "test" VNone)
           (announce "testing" VNone) (boot tree_migrated)).
  - apply list_elem_of_here.
  - apply list_elem_of_further, list_elem_of_here.
  - discriminate.
  - reflexivity.
Defined.

Lemma every_abbreviation_resolves_witness :
  find_best (@cmd_mgr _ (scenario 0 0) quiet) "te" (boot tree_migrated)
  = (Ret (@cmd_test _ (scenario 0 0) quiet), boot tree_migrated).
Proof.
  apply (@every_abbreviation_resolves _ (scenario 0 0) quiet).
  - do 4 apply list_elem_of_further. apply list_elem_of_here.
  - discriminate.
  - reflexivity.
Defined.

Lemma command_option_accumulates_witness :
  ExtendAction_extend (CommandAction_parse (@cmd_mgr _ (scenario 0 0) quiet))
                      (Some [@cmd_migrate _ (scenario 0 0) quiet]) "te,su"
                      (boot tree_migrated)
  = (Ret (Some [@cmd_migrate _ (scenario 0 0) quiet; @cmd_test _ (scenario 0 0) quiet;
                @cmd_submit _ (scenario 0 0) quiet]),
     boot tree_migrated).
Proof.
  apply (command_option_accumulates (@cmd_mgr _ (scenario 0 0) quiet)
           (Some [@cmd_migrate _ (scenario 0 0) quiet]) "te,su"
           [@cmd_test _ (scenario 0 0) quiet; @cmd_submit _ (scenario 0 0) quiet]).
  reflexivity.
Defined.

Lemma command_option_rejects_unresolved_witness :
  exists text,
    ExtendAction_extend (CommandAction_parse (@cmd_mgr _ (scenario 0 0) quiet))
                        None "te,zz" (boot tree_migrated)
    = (Raise (SystemExit (VInt 1)), printed text (boot tree_migrated)).
Proof.
  apply (command_option_rejects_unresolved (@cmd_mgr _ (scenario 0 0) quiet) None
           "te,zz" "zz").
  - apply list_elem_of_further, list_elem_of_here.
  - reflexivity.
Defined.

Lemma command_option_rejects_empty_piece_witness :
  exists text,
    ExtendAction_extend (CommandAction_parse (@cmd_mgr _ (scenario 0 0) quiet))
                        None "test, submit" (boot tree_migrated)
    = (Raise (SystemExit (VInt 1)), printed text (boot tree_migrated)).
Proof.
  apply (command_option_rejects_empty_piece (@cmd_mgr _ (scenario 0 0) quiet) None
           "test, submit").
  - simpl. lia.
  - apply list_elem_of_further, list_elem_of_here.
Defined.

Lemma value_without_delimiter_is_one_item_witness :
  RGX_LIST_split "two-fer" = ["two-fer"]
  /\ ExtendAction_extend ExtendAction_parse (Some ["leap"]) "two-fer" (boot tree_migrated)
     = (Ret (Some ["leap"; "two-fer"]), boot tree_migrated).
Proof.
  apply (value_without_delimiter_is_one_item (Some ["leap"]) "two-fer" (boot tree_migrated)).
  reflexivity.
Defined.

Lemma split_undoes_join_witness :
  RGX_LIST_split (Str.join "," ["checkin"; "migrate"; "restore"; "submit"; "test"])
  = ["checkin"; "migrate"; "restore"; "submit"; "test"].
Proof.
  apply (split_undoes_join ","%char).
  - reflexivity.
  - discriminate.
  - repeat constructor.
Defined.

Lemma quiet_task_restores_the_streams_witness :
  let run := task quiet "testing" (@test _ (scenario 0 1) quiet) "leap" (boot tree_migrated) in
  sys_stdout run.2 = Terminal /\ sys_stderr run.2 = Terminal.
Proof.
  intros run.
  apply (quiet_task_restores_the_streams quiet "testing" (@test _ (scenario 0 1) quiet)
           "leap" (boot tree_migrated)); reflexivity.
Defined.

Lemma quiet_task_hides_what_the_function_prints_witness :
  task quiet "migrating" (@migrate _ (scenario 0 0)) "leap" (boot tree_migrated)
  = (Ret VNone,
     mkState tree_migrated Terminal Terminal ("Migrating leap...Done" +:+ nl) []).
Proof.
  apply (quiet_task_hides_what_the_function_prints quiet "migrating"
           (@migrate _ (scenario 0 0)) "leap"
           ("leap" +:+ " has already been migrated" +:+ nl) (Ret VNone)
           (boot tree_migrated)).
  - reflexivity.
  - intros st0 Hfs. apply (@migrate_marker _ (scenario 0 0)). rewrite Hfs. reflexivity.
Defined.

Lemma verbose_task_shows_what_the_function_prints_witness :
  task (mkFlags (Some 1) None) "migrating" (@migrate _ (scenario 0 0)) "leap"
       (boot tree_migrated)
  = (Ret VNone,
     mkState tree_migrated Terminal Terminal
             ("Migrating leap..." +:+ nl +:+ "leap has already been migrated" +:+ nl
              +:+ "Done" +:+ nl) []).
Proof.
  apply (verbose_task_shows_what_the_function_prints (mkFlags (Some 1) None) "migrating"
           (@migrate _ (scenario 0 0)) "leap"
           ("leap" +:+ " has already been migrated" +:+ nl) (Ret VNone)
           (boot tree_migrated)).
  - reflexivity.
  - intros st0 Hfs. apply (@migrate_marker _ (scenario 0 0)). rewrite Hfs. reflexivity.
Defined.

Lemma quiet_test_prints_no_report_witness :
  call (@cmd_test _ (scenario 0 1) quiet) "leap" (boot tree_migrated)
  = (Ret VNone,
     mkState tree_migrated Terminal Terminal ("Testing leap...Done" +:+ nl)
             [PytestRun [VStr "-x"; VStr "leap"]]).
Proof.
  apply (@quiet_test_prints_no_report _ (scenario 0 1) quiet "leap" (boot tree_migrated));
    reflexivity.
Defined.

Lemma quiet_shell_commands_show_only_the_tool_witness :
  (exists e,
     call (@cmd_checkin _ (scenario 2 0) quiet) "leap" (boot tree_migrated)
     = (Raise e,
        mkState tree_migrated Terminal Terminal "Checking In leap..."
                [Spawned ["git"; "add"; "leap"]]))
  /\ (exists e,
        call (@cmd_submit _ (scenario 2 0) quiet) "leap" (boot tree_migrated)
        = (Raise e,
           mkState tree_migrated Terminal Terminal "Submitting leap..."
                   [Spawned ["exercism"; "submit"; "leap/leap.py"]])).
Proof.
  apply (@quiet_shell_commands_show_only_the_tool _ (scenario 2 0) quiet "leap"
           (boot tree_migrated)); reflexivity.
Defined.


Lemma restore_removes_before_checkout_witness :
  let fs1 := default ∅ (mem_rmtree "leap" tree_migrated) in
  exists e st',
    call (@cmd_restore _ (scenario 1 0) quiet) "leap" (boot tree_migrated) = (Raise e, st')
    /\ fs st' = fs1
    /\ journal st' = [Removed "leap"; Spawned ["git"; "checkout"; "--"; "leap"]].
Proof.
  intros fs1.
  apply (@restore_removes_before_checkout _ (scenario 1 0) quiet "leap" fs1
           (boot tree_migrated)).
  reflexivity.
Defined.

Lemma main_without_targets_does_nothing_witness :
  run_main (scenario 0 0)
           (mkOptions ["leap"] [@cmd_test _ (scenario 0 0) quiet] ["laep"; "leap"])
           tree_migrated
  = (Ret tt, boot tree_migrated).
Proof.
  apply (@main_without_targets_does_nothing _ (scenario 0 0)
           (mkOptions ["leap"] [@cmd_test _ (scenario 0 0) quiet] ["laep"; "leap"])
           (boot tree_migrated)).
  intros pattern ex Hp Hex.
  apply elem_of_cons in Hp as [-> | Hp].
  - by apply elem_of_nil in Hex.
  - apply list_elem_of_singleton in Hp as ->. exact Hex.
Defined.

Lemma main_ends_with_the_first_exception_witness :
  run_main (scenario 2 0)
           (mkOptions [] [@cmd_test _ (scenario 2 0) quiet; @cmd_checkin _ (scenario 2 0) quiet]
                      ["leap"; "laep"])
           tree_migrated
  = (Raise (AttributeError "NoneType" "decode"),
     mkState tree_migrated Terminal Terminal
             ("Testing leap...Done" +:+ nl +:+ "Checking In leap...")
             [PytestRun [VStr "-x"; VStr "leap"]; Spawned ["git"; "add"; "leap"]]).
Proof.
  apply (@main_ends_with_the_first_exception _ (scenario 2 0) []
           [@cmd_test _ (scenario 2 0) quiet; @cmd_checkin _ (scenario 2 0) quiet]
           "leap" ["laep"] [(@cmd_test _ (scenario 2 0) quiet, "leap")] []
           (@cmd_checkin _ (scenario 2 0) quiet) "leap"
           (AttributeError "NoneType" "decode") (boot tree_migrated)
           (mkState tree_migrated Terminal Terminal ("Testing leap...Done" +:+ nl)
                    [PytestRun [VStr "-x"; VStr "leap"]])).
  - reflexivity.
  - vm_compute. reflexivity.
  - vm_compute. reflexivity.
Defined.

Lemma checkin_stops_after_the_first_target_witness :
  exists e st',
    run_main (scenario 0 0)
             (mkOptions [] [@cmd_checkin _ (scenario 0 0) quiet] ["ex1"; "ex2"])
             tree_ex1_ex2
    = (Raise e, st')
    /\ journal st' = [Spawned ["git"; "add"; "ex1"]].
Proof.
  apply (@checkin_stops_after_the_first_target _ (scenario 0 0) quiet [] [] "ex1" ["ex2"]
           "ex1" [] (boot tree_ex1_ex2)).
  - reflexivity.
  - apply not_elem_of_nil.
Defined.

Lemma verbose_test_shows_the_report_witness :
  call (@cmd_test _ (scenario 0 1) (mkFlags (Some 1) None)) "leap" (boot tree_migrated)
  = (Ret VNone,
     mkState tree_migrated Terminal Terminal
             ("Testing leap..." +:+ nl +:+ "pytest -x leap" +:+ nl +:+ "Done" +:+ nl)
             [PytestRun [VStr "-x"; VStr "leap"]]).
Proof.
  apply (@verbose_test_shows_the_report _ (scenario 0 1) (mkFlags (Some 1) None) "leap"
           (boot tree_migrated)); reflexivity.
Defined.

Lemma verbose_checkin_echoes_the_command_witness :
  exists e,
    call (@cmd_checkin _ (scenario 0 0) (mkFlags (Some 2) None)) "leap" (boot tree_migrated)
    = (Raise e,
       mkState tree_migrated Terminal Terminal
               ("Checking In leap..." +:+ nl +:+ "git add leap" +:+ nl)
               [Spawned ["git"; "add"; "leap"]]).
Proof.
  apply (@verbose_checkin_echoes_the_command _ (scenario 0 0) (mkFlags (Some 2) None)
           "leap" (boot tree_migrated)); reflexivity.
Defined.

Lemma test_never_fails_the_process_witness :
  exists st',
    run_main (scenario 0 1) (mkOptions [] [@cmd_test _ (scenario 0 1) quiet] ["leap"])
             tree_migrated
    = (Ret tt, st').
Proof.
  apply (@test_never_fails_the_process _ (scenario 0 1) quiet [] ["leap"]
           (boot tree_migrated)).
  reflexivity.
Defined.
